(** * GenAiOps backend: tool functions, agent graph and chat endpoint

    A shallow embedding of [backend/tools.py], [backend/retriever.py],
    [backend/graph.py], [backend/main.py] and [backend/api.py].

    Python values coming from [json.loads] are the inductive [json];
    Python exceptions are values of [exn] threaded through an error
    monad; the HTTP requests a tool issues are recorded in a log that
    survives a caught exception, as side effects do in Python.  The
    outside world (HTTP servers, clocks, the date parsers, the language
    model, the vector index) enters through records of oracles.

    Diagnostic [print] calls are not part of the model. *)

From Stdlib Require Import String Ascii List ZArith Lia Bool Arith.
From Stdlib Require Import Floats.SpecFloat DecimalString.
Import ListNotations.
Open Scope string_scope.
Open Scope list_scope.
Set Warnings "-register-all".

(* ===================================================================== *)
(** * Part I: definitions                                                *)
(* ===================================================================== *)

(** ** The fragment of Python the backend relies on *)
Module Py.

(** Exception classes that occur in the backend.  Only subclasses of
    [Exception] are modelled.  A subclass that the handlers never
    name separately is filed under the class they do name
    ([JSONDecodeError] and [UnicodeDecodeError] under [ValueError]). *)
Inductive ExnClass :=
| URLError | HTTPError | KeyError | IndexError | ValueError
| TypeError | AttributeError | OverflowError | GraphRecursionError
| OtherError.

Definition ExnClass_eqb (a b : ExnClass) : bool :=
  match a, b with
  | URLError, URLError | HTTPError, HTTPError | KeyError, KeyError
  | IndexError, IndexError | ValueError, ValueError
  | TypeError, TypeError | AttributeError, AttributeError
  | OverflowError, OverflowError
  | GraphRecursionError, GraphRecursionError
  | OtherError, OtherError => true
  | _, _ => false
  end.

(** An exception object: its class and [str(e)]. *)
Record exn := Exn { exn_class : ExnClass; exn_str : string }.

(** [except (C1, ..., Cn)]: does the clause catch [e]? *)
Definition caught_by (classes : list ExnClass) (e : exn) : bool :=
  existsb (ExnClass_eqb (exn_class e)) classes.

(** Pure computations that may raise. *)
Definition Exc (A : Type) : Type := (exn + A)%type.

Definition eret {A} (a : A) : Exc A := inr a.
Definition eraise {A} (c : ExnClass) (msg : string) : Exc A :=
  inl (Exn c msg).
Definition ebind {A B} (m : Exc A) (k : A -> Exc B) : Exc B :=
  match m with inl e => inl e | inr a => k a end.

(** JSON documents as [json.loads] returns them. *)
Inductive json :=
| JNull
| JBool (b : bool)
| JInt (z : Z)
| JFloat (f : spec_float)
| JStr (s : string)
| JList (l : list json)
| JDict (d : list (string * json)).

(** [d[k]] on the entries of a dict. *)
Fixpoint lookup (k : string) (d : list (string * json)) : option json :=
  match d with
  | [] => None
  | (k', v) :: d' => if String.eqb k k' then Some v else lookup k d'
  end.

(** [bool(v)] *)
Definition truthy (v : json) : bool :=
  match v with
  | JNull => false
  | JBool b => b
  | JInt z => negb (Z.eqb z 0)
  | JFloat (S754_zero _) => false
  | JFloat _ => true
  | JStr s => negb (String.eqb s "")
  | JList l => match l with [] => false | _ => true end
  | JDict d => match d with [] => false | _ => true end
  end.

(** [v[i]] for an index [i >= 0]. *)
Definition getitem_int (v : json) (i : nat) : Exc json :=
  match v with
  | JList l =>
      match nth_error l i with
      | Some x => eret x
      | None => eraise IndexError "list index out of range"
      end
  | JStr s =>
      match String.get i s with
      | Some c => eret (JStr (String c EmptyString))
      | None => eraise IndexError "string index out of range"
      end
  | JDict _ => eraise KeyError (NilEmpty.string_of_uint (Nat.to_uint i))
  | _ => eraise TypeError "object is not subscriptable"
  end.

(** [v[k]] for a string key [k]. *)
Definition getitem_str (v : json) (k : string) : Exc json :=
  match v with
  | JDict d =>
      match lookup k d with
      | Some x => eret x
      | None => eraise KeyError k
      end
  | JList _ => eraise TypeError "list indices must be integers or slices, not str"
  | JStr _ => eraise TypeError "string indices must be integers, not 'str'"
  | _ => eraise TypeError "object is not subscriptable"
  end.

(** [x == JStr s] for a string [s] *)
Definition is_str (s : string) (x : json) : bool :=
  match x with JStr s' => String.eqb s s' | _ => false end.

(** [s in v] for a string [s]. *)
Definition contains_str (s : string) (v : json) : Exc bool :=
  match v with
  | JDict d => eret (match lookup s d with Some _ => true | None => false end)
  | JList l => eret (existsb (is_str s) l)
  | JStr t => eret (match String.index 0 s t with Some _ => true | None => false end)
  | _ => eraise TypeError "argument is not iterable"
  end.

(** [v.get(k, default)] *)
Definition get (v : json) (k : string) (default : json) : Exc json :=
  match v with
  | JDict d => eret (match lookup k d with Some x => x | None => default end)
  | _ => eraise AttributeError "object has no attribute 'get'"
  end.

(** Position of the first element of [l] equal to the string [s]. *)
Fixpoint list_index (s : string) (l : list json) : option nat :=
  match l with
  | [] => None
  | x :: l' => if is_str s x then Some 0
               else option_map S (list_index s l')
  end.

(** [v.index(s)] for a string [s]. *)
Definition index_str (v : json) (s : string) : Exc nat :=
  match v with
  | JList l =>
      match list_index s l with
      | Some i => eret i
      | None => eraise ValueError "is not in list"
      end
  | JStr t =>
      match String.index 0 s t with
      | Some i => eret i
      | None => eraise ValueError "substring not found"
      end
  | _ => eraise AttributeError "object has no attribute 'index'"
  end.

(** [float(v)].  Parsing a string is left to the oracle [of_str];
    an [int] is rounded to the nearest binary64 number. *)
Definition float_one : spec_float := S754_finite false 4503599627370496 (-52).

Definition float (of_str : string -> option spec_float) (v : json)
  : Exc spec_float :=
  match v with
  | JStr s =>
      match of_str s with
      | Some f => eret f
      | None => eraise ValueError "could not convert string to float"
      end
  | JFloat f => eret f
  | JInt z =>
      match binary_normalize 53 1024 z 0 false with
      | S754_infinity _ => eraise OverflowError "int too large to convert to float"
      | f => eret f
      end
  | JBool b => eret (if b then float_one else S754_zero false)
  | _ => eraise TypeError "float() argument must be a string or a real number"
  end.

(** [sep.join(items)]: every item must be a [str]. *)
Fixpoint join (sep : string) (items : list json) : Exc string :=
  match items with
  | [] => eret ""
  | JStr s :: rest =>
      match rest with
      | [] => eret s
      | _ => ebind (join sep rest) (fun t => eret (s ++ sep ++ t)%string)
      end
  | _ :: _ => eraise TypeError "sequence item: expected str instance"
  end.

(** Computations that may raise and that issue requests of type [R]:
    the log of requests is kept when an exception is raised. *)
Definition IO (R A : Type) : Type := list R -> Exc A * list R.

Definition ret {R A} (a : A) : IO R A := fun log => (inr a, log).
Definition raise {R A} (e : exn) : IO R A := fun log => (inl e, log).
Definition bind {R A B} (m : IO R A) (k : A -> IO R B) : IO R B :=
  fun log =>
    match m log with
    | (inl e, log') => (inl e, log')
    | (inr a, log') => k a log'
    end.
Definition lift {R A} (m : Exc A) : IO R A := fun log => (m, log).

(** [try: body  except classes as e: handler e] *)
Definition try_except {R A} (body : IO R A) (classes : list ExnClass)
    (handler : exn -> IO R A) : IO R A :=
  fun log =>
    match body log with
    | (inl e, log') =>
        if caught_by classes e then handler e log' else (inl e, log')
    | ok => ok
    end.

(** [try: body  except Exception as e: handler e] *)
Definition try_except_Exception {R A} (body : IO R A)
    (handler : exn -> IO R A) : IO R A :=
  fun log =>
    match body log with
    | (inl e, log') => handler e log'
    | ok => ok
    end.

End Py.

Declare Scope io_scope.
Delimit Scope io_scope with io.
Notation "x <- m ;; k" := (Py.bind m (fun x => k))
  (at level 61, m at next level, right associativity) : io_scope.
Notation "'let!' x ':=' m 'in' k" := (Py.ebind m (fun x => k))
  (at level 61, x name, m at next level, right associativity).

(** ** [backend/retriever.py] *)
Module Retriever.
Import Py.

(** A LangChain [Document]. *)
Record Document := { page_content : string; metadata : json }.

(** The vector store behind [QdrantVectorStore.as_retriever]:
    [similarity_search collection query k] is what
    [as_retriever(search_kwargs={"k": k}).invoke(query)] returns for
    that collection, or what it raises. *)
Record VectorStore := {
  similarity_search : string -> string -> nat -> Exc (list Document)
}.

Record QdrantRetrievalService := {
  qdrant_url : string;
  collection_name : string;
  top_k : nat
}.

(** [QdrantRetrievalService.__init__(qdrant_url, collection_name,
    embedding, top_k=5)]; [None] stands for an omitted [top_k]. *)
Definition QdrantRetrievalService_init (url collection : string)
    (k : option nat) : QdrantRetrievalService :=
  {| qdrant_url := url;
     collection_name := collection;
     top_k := match k with Some n => n | None => 5 end |}.

Definition query (V : VectorStore) (self : QdrantRetrievalService)
    (input_text : string) : Exc (list Document) :=
  similarity_search V (collection_name self) input_text (top_k self).

(** [get_retriever()], with the two configuration values it reads. *)
Definition get_retriever (QDRANT_URL QDRANT_COLLECTION : string)
  : QdrantRetrievalService :=
  QdrantRetrievalService_init QDRANT_URL QDRANT_COLLECTION None.

End Retriever.

(** ** [backend/tools.py] *)
Module Tools.
Import Py.
Local Open Scope io_scope.

(** A value passed in the [params] dict of [_http_get]. *)
Inductive param :=
| PStr (s : string)
| PFloat (f : spec_float)
| PBool (b : bool)
| PStrs (l : list string).

(** One call of [_http_get]. *)
Record Request := {
  req_url : string;
  req_params : list (string * param);
  req_headers : list (string * string)
}.

(** The dict a tool returns. *)
Definition pydict : Type := list (string * json).

(** What the tools see of the outside world during one call.  Dates
    are proleptic Gregorian ordinals ([date.toordinal()]), on which
    comparison and [+ timedelta(days=n)] are integer comparison and
    addition; the clock is taken to be more than ten days before
    [date.max]. *)
Record World := {
  (** the decoded body [_http_get] returns for a request, or what it raises *)
  http : Request -> Exc json;
  (** [float(s)] on a string; [None] when it raises [ValueError] *)
  float_of_str : string -> option spec_float;
  (** [datetime.utcnow().date()] *)
  utcnow_date : Z;
  (** [datetime.strptime(s, "%Y-%m-%d").date()]; [None] for [ValueError] *)
  strptime_ymd : string -> option Z;
  (** timezone-aware datetimes *)
  datetime : Type;
  (** [datetime.now(pytz.timezone("Europe/Berlin"))] *)
  now_berlin : datetime;
  (** [dateparser.parse(phrase, settings={..., "RELATIVE_BASE": now})] *)
  dateparser_parse : string -> datetime -> Exc (option datetime);
  (** [dt.strftime("%Y-%m-%d")] *)
  strftime_ymd : datetime -> string
}.

Section WithWorld.
Variable W : World.

Definition io : Type -> Type := IO Request.

Definition request (url : string) (params : list (string * param))
    (headers : list (string * string)) : Request :=
  {| req_url := url; req_params := params; req_headers := headers |}.

Definition _http_get (url : string) (params : list (string * param))
    (headers : list (string * string)) : io json :=
  fun log =>
    let r := request url params headers in
    (http W r, log ++ [r]).

Definition user_agent : list (string * string) :=
  [("User-Agent", "GenAiProject")].

Definition geocode_url : string :=
  "https://nominatim.openstreetmap.org/search".

Definition geocode_params (city country : string) : list (string * param) :=
  [("city", PStr city); ("country", PStr country); ("format", PStr "json")].

(** What [get_latitude_longitude] makes of the decoded body. *)
Definition first_coordinates (data : json)
  : Exc (option (spec_float * spec_float)) :=
  if truthy data then
    let! first := getitem_int data 0 in
    let! lat := getitem_str first "lat" in
    let! lat := float (float_of_str W) lat in
    let! first := getitem_int data 0 in
    let! lon := getitem_str first "lon" in
    let! lon := float (float_of_str W) lon in
    eret (Some (lat, lon))
  else eret None.

Definition get_latitude_longitude (city country : string)
  : io (option (spec_float * spec_float)) :=
  try_except
    (data <- _http_get geocode_url (geocode_params city country) user_agent ;;
     lift (first_coordinates data))
    [URLError; HTTPError; KeyError; IndexError; ValueError]
    (fun _ => ret None).

Definition weather_params (latitude longitude : spec_float)
  : list (string * param) :=
  [("latitude", PFloat latitude); ("longitude", PFloat longitude);
   ("current_weather", PBool true);
   ("hourly", PStrs ["precipitation"; "cloudcover"; "wind_speed_10m"]);
   ("timezone", PStr "auto")].

Definition weather_url : string := "https://api.open-meteo.com/v1/forecast".

(** What [get_weather] makes of the decoded body. *)
Definition current_entry (data : json) : Exc (option pydict) :=
  let! has := contains_str "current_weather" data in
  if has then
    let! current := getitem_str data "current_weather" in
    let! temperature := get current "temperature" JNull in
    let! windspeed := get current "windspeed" JNull in
    let! winddirection := get current "winddirection" JNull in
    let! weathercode := get current "weathercode" JNull in
    let! time := get current "time" JNull in
    let! rain := get current "precipitation" JNull in
    let! cloudcover := get current "cloudcover" JNull in
    eret (Some [("temperature", temperature); ("windspeed", windspeed);
                ("winddirection", winddirection);
                ("weathercode", weathercode); ("time", time);
                ("rain", rain); ("cloudcover", cloudcover)])
  else eret None.

Definition get_weather (latitude longitude : spec_float)
  : io (option pydict) :=
  try_except
    (data <- _http_get weather_url
               (weather_params latitude longitude) user_agent ;;
     lift (current_entry data))
    [URLError; HTTPError; KeyError; ValueError; IndexError]
    (fun _ => ret None).

Definition forecast_params (latitude longitude : spec_float)
  : list (string * param) :=
  [("latitude", PFloat latitude); ("longitude", PFloat longitude);
   ("daily", PStr "temperature_2m_max,temperature_2m_min,precipitation_sum,cloudcover_mean");
   ("timezone", PStr "auto")].

Definition forecast_url : string := "https://api.open-meteo.com/v1/ecmwf".

(** [column[idx]] for the column of [daily_data] under [key]. *)
Definition column_at (daily_data : json) (key : string) (idx : nat)
  : Exc json :=
  let! col := getitem_str daily_data key in
  getitem_int col idx.

(** What [get_weather_forecast] makes of the decoded body. *)
Definition daily_entry (data : json) (forecast_date : string)
  : Exc (option pydict) :=
  let! has := contains_str "daily" data in
  if has then
    let! daily_data := getitem_str data "daily" in
    let! times := get daily_data "time" (JList []) in
    let! found := contains_str forecast_date times in
    if found then
      let! idx := index_str times forecast_date in
      let! tmax := column_at daily_data "temperature_2m_max" idx in
      let! tmin := column_at daily_data "temperature_2m_min" idx in
      let! prec := column_at daily_data "precipitation_sum" idx in
      let! cloud := (let! col := get daily_data "cloudcover_mean" (JList [JNull])
                     in getitem_int col idx) in
      eret (Some [("date", JStr forecast_date);
                  ("temperature_max", tmax); ("temperature_min", tmin);
                  ("precipitation_sum", prec); ("cloudcover_mean", cloud)])
    else eret None
  else eret None.

(** The series [daily_entry] searches: [data["daily"].get("time", [])]. *)
Definition daily_times (data : json) : Exc json :=
  let! daily_data := getitem_str data "daily" in
  get daily_data "time" (JList []).

Definition forecast_columns : list string :=
  ["temperature_2m_max"; "temperature_2m_min"; "precipitation_sum";
   "cloudcover_mean"].

(** Does [daily_data] hold each forecast column as an array of at
    least [n] values? *)
Definition covers (daily_data : json) (n : nat) : bool :=
  forallb
    (fun key =>
       match getitem_str daily_data key with
       | inr (JList col) => (n <=? length col)%nat
       | _ => false
       end)
    forecast_columns.

(** The second [try] block of [get_weather_forecast]. *)
Definition fetch_forecast (latitude longitude : spec_float)
    (forecast_date : string) : io (option pydict) :=
  try_except
    (data <- _http_get forecast_url
               (forecast_params latitude longitude) user_agent ;;
     lift (daily_entry data forecast_date))
    [URLError; HTTPError; KeyError; ValueError; IndexError]
    (fun _ => ret None).

Definition get_weather_forecast (latitude longitude : spec_float)
    (forecast_date : string) : io (option pydict) :=
  let start_date := utcnow_date W in
  let end_date := (start_date + 10)%Z in
  match strptime_ymd W forecast_date with
  | None => ret None
  | Some requested_date =>
      if (requested_date <? start_date)%Z || (requested_date >? end_date)%Z
      then ret None
      else fetch_forecast latitude longitude forecast_date
  end.

Definition get_weather_from_city_name (city country : string)
  : io (option pydict) :=
  coords <- get_latitude_longitude city country ;;
  match coords with
  | Some (latitude, longitude) => get_weather latitude longitude
  | None => ret None
  end.

Definition get_weather_forecast_from_city_name
    (city country forecast_date : string) : io (option pydict) :=
  coords <- get_latitude_longitude city country ;;
  match coords with
  | Some (latitude, longitude) =>
      get_weather_forecast latitude longitude forecast_date
  | None => ret None
  end.

Definition get_weather_forecast_from_city_name_date_phrase
    (city country date_phrase : string) : io (option pydict) :=
  try_except_Exception
    (let now := now_berlin W in
     dt <- lift (dateparser_parse W date_phrase now) ;;
     let dt := match dt with None => now | Some d => d end in
     let target_date_str := strftime_ymd W dt in
     get_weather_forecast_from_city_name city country target_date_str)
    (fun _ => ret None).

End WithWorld.

(** Newline, and the separator of [retriever_tool]. *)
Definition nl : string := String (ascii_of_nat 10) EmptyString.
Definition blank_line : string := (nl ++ nl)%string.

(** [retriever_tool], the closure [get_tools] builds over
    [retriever = get_retriever()]. *)
Definition retriever_tool (V : Retriever.VectorStore)
    (retriever : Retriever.QdrantRetrievalService) (query : string)
  : Exc string :=
  let! docs := Retriever.query V retriever query in
  join blank_line (map (fun doc => JStr (Retriever.page_content doc)) docs).

(** The names of the tools [get_tools] returns when the retriever
    was imported. *)
Definition get_tools : list string :=
  ["get_weather_from_city_name"; "get_weather_forecast_from_city_name";
   "get_weather_forecast_from_city_name_date_phrase"] ++ ["retriever_tool"].

End Tools.

(** ** [backend/graph.py] *)
Module Graph.
Import Py.

(** Message content: plain text, or a list of parts each of which is
    a string or a dict. *)
Inductive part :=
| PartStr (s : string)
| PartDict (d : list (string * json)).

Inductive content :=
| Text (s : string)
| Parts (l : list part).

Record ToolCall := {
  tc_name : string;
  tc_args : json;
  tc_id : string
}.

Inductive Message :=
| SystemMessage (c : content)
| HumanMessage (c : content)
| AIMessage (c : content) (tool_calls : list ToolCall)
| ToolMessage (c : content) (tool_call_id : string).

Definition message_content (m : Message) : content :=
  match m with
  | SystemMessage c | HumanMessage c | AIMessage c _ | ToolMessage c _ => c
  end.

(** [MessagesState] *)
Record MessagesState := { messages : list Message }.

(** [l[-1]] *)
Fixpoint last_item {A} (l : list A) : Exc A :=
  match l with
  | [] => eraise IndexError "list index out of range"
  | [x] => eret x
  | _ :: l' => last_item l'
  end.

(** The collaborators of the graph: the chat model bound to the tools
    and the execution of one tool call by [ToolNode]. *)
Record Agent := {
  (** [config.SYSTEM_PROMPT] *)
  SYSTEM_PROMPT : string;
  (** [llm_with_tools.invoke(messages)]: content and tool calls of
      the [AIMessage] it returns, or what it raises *)
  llm_with_tools_invoke : list Message -> Exc (content * list ToolCall);
  (** the content of the [ToolMessage] for one call, or what the
      tool node raises *)
  run_tool : ToolCall -> Exc content
}.

(** The names of the two nodes, and where an edge may lead. *)
Inductive Node := reasoner | tool.
Inductive Target := To (n : Node) | END.

(** [graph.add_edge(START, "reasoner")] *)
Definition entry_point : Target := To reasoner.

Section WithAgent.
Variable A : Agent.

(** The list the model is invoked on. *)
Definition reasoner_input (state : MessagesState) : list Message :=
  [SystemMessage (Text (SYSTEM_PROMPT A))] ++ messages state.

Definition reasoner_node (state : MessagesState) : Exc (list Message) :=
  let messages := reasoner_input state in
  let! response := llm_with_tools_invoke A messages in
  eret [AIMessage (fst response) (snd response)].

Definition check_for_tools (state : MessagesState) : Exc string :=
  let! last_message := last_item (messages state) in
  match last_message with
  | AIMessage _ tool_calls =>
      match tool_calls with
      | _ :: _ => eret "tools"
      | [] => eret "end"
      end
  | _ => eraise AttributeError "object has no attribute 'tool_calls'"
  end.

(** The path map of [add_conditional_edges]. *)
Definition path_map (label : string) : Exc Target :=
  if String.eqb label "tools" then eret (To tool)
  else if String.eqb label "end" then eret END
  else eraise KeyError label.

(** [ToolNode(tools)]: one [ToolMessage] per tool call of the last
    message, in the order of the calls. *)
Fixpoint run_tools (calls : list ToolCall) : Exc (list Message) :=
  match calls with
  | [] => eret []
  | c :: rest =>
      let! out := run_tool A c in
      let! outs := run_tools rest in
      eret (ToolMessage out (tc_id c) :: outs)
  end.

Definition tool_node (state : MessagesState) : Exc (list Message) :=
  let! last_message := last_item (messages state) in
  match last_message with
  | AIMessage _ tool_calls => run_tools tool_calls
  | _ => eraise ValueError "Last message is not an AIMessage"
  end.

(** The [add_messages] reducer of [MessagesState], on messages
    whose ids differ from those already in the state (ids are
    assigned afresh to every message built here). *)
Definition add_messages (left right : list Message) : list Message :=
  left ++ right.

Definition run_node (n : Node) (state : MessagesState) : Exc (list Message) :=
  match n with
  | reasoner => reasoner_node state
  | tool => tool_node state
  end.

(** The edge leaving a node, on the state the node produced. *)
Definition next_target (n : Node) (state : MessagesState) : Exc Target :=
  match n with
  | reasoner => let! label := check_for_tools state in path_map label
  | tool => eret (To reasoner)
  end.

(** One superstep: run the node, merge its update, follow its edge. *)
Definition superstep (n : Node) (state : MessagesState)
  : Exc (MessagesState * Target) :=
  let! update := run_node n state in
  let state' := {| messages := add_messages (messages state) update |} in
  let! next := next_target n state' in
  eret (state', next).

(** How a run of the compiled graph ends. *)
Inductive Status :=
| done
| out_of_steps
| failed (e : exn).

Record Run := {
  status : Status;
  final_state : MessagesState;
  (** the nodes that ran to completion, in order *)
  trace : list Node
}.

(** The loop [graph.compile()] runs, as LangGraph defines it: the
    [recursion_limit] bounds the number of supersteps, every run of a
    node of this graph being one superstep (the step that feeds the
    input in at [START] is not counted).  [budget] is the number of
    supersteps still allowed; it is checked before the next node is
    looked at, so a run is [done] only if it reaches [END] with
    budget left, and is [out_of_steps] otherwise. *)
Fixpoint pregel_loop (budget : nat) (next : Target) (state : MessagesState)
  : Run :=
  match budget with
  | O => {| status := out_of_steps; final_state := state; trace := [] |}
  | S budget' =>
      match next with
      | END => {| status := done; final_state := state; trace := [] |}
      | To n =>
          match superstep n state with
          | inl e => {| status := failed e; final_state := state; trace := [] |}
          | inr (state', next') =>
              let r := pregel_loop budget' next' state' in
              {| status := status r;
                 final_state := final_state r;
                 trace := n :: trace r |}
          end
      end
  end.

Definition run (recursion_limit : nat) (input : list Message) : Run :=
  pregel_loop recursion_limit entry_point
    {| messages := add_messages [] input |}.

(** [app.invoke({"messages": input}, config={"recursion_limit": n})] *)
Definition invoke (recursion_limit : nat) (input : list Message)
  : Exc MessagesState :=
  if Nat.ltb recursion_limit 1
  then eraise ValueError "recursion_limit must be at least 1"
  else
    let r := run recursion_limit input in
    match status r with
    | done => eret (final_state r)
    | out_of_steps =>
        eraise GraphRecursionError
          "Recursion limit reached without hitting a stop condition."
    | failed e => inl e
    end.

(** Configurations of the loop (state and next target) and the
    configurations a run passes through from a given one. *)
Inductive reaches
  : MessagesState * Target -> MessagesState * Target -> Prop :=
| reaches_here c : reaches c c
| reaches_step n state state' next c :
    superstep n state = inr (state', next) ->
    reaches (state', next) c ->
    reaches (state, To n) c.

(** A model that asks for at least one tool call whatever it is
    invoked on. *)
Definition always_requests_tool : Prop :=
  forall msgs, exists c call calls,
    llm_with_tools_invoke A msgs = inr (c, call :: calls).

(** A tool node that turns every call into a message. *)
Definition tools_always_return : Prop :=
  forall call, exists out, run_tool A call = inr out.

(** Number of completed runs of a node in a trace. *)
Definition count_node (n : Node) (tr : list Node) : nat :=
  length (filter (fun m => match n, m with
                           | reasoner, reasoner | tool, tool => true
                           | _, _ => false
                           end) tr).

End WithAgent.
End Graph.

(** ** [backend/main.py] *)
Module Main.
Import Py Graph.

Definition recursion_limit : nat := 50.

(** Is [part] a dict whose ['type'] is ['text']? *)
Definition is_text_part (p : part) : bool :=
  match p with
  | PartDict d =>
      match lookup "type" d with
      | Some v => is_str "text" v
      | None => false
      end
  | PartStr _ => false
  end.

(** [part.get('text', '')] *)
Definition part_text (p : part) : json :=
  match p with
  | PartDict d =>
      match lookup "text" d with Some v => v | None => JStr "" end
  | PartStr _ => JStr ""
  end.


(** A part that is not text-typed, or whose text is a string. *)
Definition text_is_str (p : part) : bool :=
  negb (is_text_part p)
  || match part_text p with JStr _ => true | _ => false end.

(** The [for part in answer] loop. *)
Definition text_parts (answer : list part) : list json :=
  fold_left
    (fun text_parts part =>
       if is_text_part part then text_parts ++ [part_text part]
       else text_parts)
    answer [].

(** The treatment of the last message's content. *)
Definition postprocess (answer : content) : Exc string :=
  match answer with
  | Parts l => join "" (text_parts l)
  | Text s => eret s
  end.

Definition answer_query (A : Agent) (user_query : string)
    (chat_history : option (list Message)) : Exc string :=
  let chat_history :=
    match chat_history with None => [] | Some h => h end in
  let messages := chat_history ++ [HumanMessage (Text user_query)] in
  let! result_state := invoke A recursion_limit messages in
  let! last_message := last_item (Graph.messages result_state) in
  postprocess (message_content last_message).

End Main.

(** ** [backend/api.py] *)
Module Api.
Import Py Graph.

Record ChatMessage := { role : string; content : string }.

Record ChatRequest := {
  message : string;
  chat_history : list ChatMessage
}.

(** The body [{"response": ...}]. *)
Record ChatResponse := { response : string }.

(** The [for msg in request.chat_history] loop. *)
Definition convert_history (chat_history : list ChatMessage) : list Message :=
  fold_left
    (fun history msg =>
       if String.eqb (role msg) "user"
       then history ++ [HumanMessage (Text (content msg))]
       else if String.eqb (role msg) "assistant"
       then history ++ [AIMessage (Text (content msg)) []]
       else history)
    chat_history [].

Definition apology : string := "Sorry, I was not able to generate an answer.".

(** [chat(request)]: the [try] block, then [except Exception]. *)
Definition chat (A : Agent) (request : ChatRequest) : Exc ChatResponse :=
  let body :=
    let history := convert_history (chat_history request) in
    let! full_response := Main.answer_query A (message request) (Some history) in
    if String.eqb full_response ""
    then eret {| response := apology |}
    else eret {| response := full_response |} in
  match body with
  | inl e => eret {| response := ("A error occurred: " ++ exn_str e)%string |}
  | inr r => inr r
  end.

End Api.

(** ** The Gregorian calendar of [datetime.date] *)
Module Calendar.

Definition is_leap (year : Z) : bool :=
  ((year mod 4 =? 0) && (negb (year mod 100 =? 0) || (year mod 400 =? 0)))%Z.

Definition days_before_year (year : Z) : Z :=
  let y := (year - 1)%Z in
  (y * 365 + y / 4 - y / 100 + y / 400)%Z.

Definition days_in_month (year month : Z) : Z :=
  if (month =? 2)%Z then (if is_leap year then 29 else 28)%Z
  else if ((month =? 4) || (month =? 6) || (month =? 9) || (month =? 11))%Z
  then 30%Z else 31%Z.

Fixpoint days_before_month_aux (year : Z) (months : nat) : Z :=
  match months with
  | O => 0%Z
  | S k => (days_before_month_aux year k + days_in_month year (Z.of_nat (S k)))%Z
  end.

Definition days_before_month (year month : Z) : Z :=
  days_before_month_aux year (Z.to_nat (month - 1)).

(** [date(year, month, day).toordinal()] *)
Definition ymd2ord (year month day : Z) : Z :=
  (days_before_year year + days_before_month year month + day)%Z.

Definition digit (c : ascii) : option Z :=
  let n := nat_of_ascii c in
  if (48 <=? n)%nat && (n <=? 57)%nat then Some (Z.of_nat (n - 48)) else None.

Definition digits2 (a b : ascii) : option Z :=
  match digit a, digit b with
  | Some x, Some y => Some (10 * x + y)%Z
  | _, _ => None
  end.

(** The ordinal of a valid date. *)
Definition date_ordinal (year month day : Z) : option Z :=
  if ((1 <=? year) && (1 <=? month) && (month <=? 12) && (1 <=? day)
      && (day <=? days_in_month year month))%Z
  then Some (ymd2ord year month day) else None.

(** [strptime(s, "%Y-%m-%d").date()] on the zero-padded ten-character
    form [YYYY-MM-DD]; every other string is rejected here. *)
Definition strptime_iso (s : string) : option Z :=
  match s with
  | String y1 (String y2 (String y3 (String y4 (String "-"
      (String m1 (String m2 (String "-" (String d1 (String d2 EmptyString))))))))) =>
      match digits2 y1 y2, digits2 y3 y4, digits2 m1 m2, digits2 d1 d2 with
      | Some yh, Some yl, Some m, Some d => date_ordinal (100 * yh + yl) m d
      | _, _, _, _ => None
      end
  | _ => None
  end.

Definition digit_char (n : Z) : ascii := ascii_of_nat (48 + Z.to_nat (n mod 10)).

Definition pad2 (n : Z) : string :=
  String (digit_char (n / 10)) (String (digit_char n) EmptyString).

(** [date(year, month, day).strftime("%Y-%m-%d")] *)
Definition isoformat (year month day : Z) : string :=
  (pad2 (year / 100) ++ pad2 year ++ "-" ++ pad2 month ++ "-" ++ pad2 day)%string.

End Calendar.

(** ** Concrete environments on which the model is run *)
Module Sample.
Import Py Tools Graph.

(** Berlin, as the geocoder reports it, followed by a second hit. *)
Definition berlin_hits : json :=
  JList [JDict [("lat", JStr "52.5"); ("lon", JStr "13.4")];
         JDict [("lat", JStr "40.0"); ("lon", JStr "-75.0")]].

(** The days of January 2025 the forecast covers: the 5th is missing. *)
Definition days : list Z := [1; 2; 3; 4; 6; 7; 8; 9; 10; 11]%Z.

Definition january : list json :=
  map (fun d => JStr (Calendar.isoformat 2025 1 d)) days.

Definition column (base : Z) : json :=
  JList (map (fun d => JInt (base + d)) days).

Definition forecast_body : json :=
  JDict [("daily",
          JDict [("time", JList january);
                 ("temperature_2m_max", column 0);
                 ("temperature_2m_min", column (-10));
                 ("precipitation_sum", column 20);
                 ("cloudcover_mean", column 50)])].

Definition weather_body : json :=
  JDict [("current_weather",
          JDict [("temperature", JInt 3); ("windspeed", JInt 12);
                 ("winddirection", JInt 270); ("weathercode", JInt 1);
                 ("time", JStr "2025-01-01T12:00")])].

Definition is_city (city : string) (r : Request) : bool :=
  match req_params r with
  | ("city", PStr c) :: _ => String.eqb c city
  | _ => false
  end.

(** A geocoder that knows Berlin only, a forecast service covering
    1 to 11 January 2025 but for the 5th, and a clock standing at
    1 January 2025. *)
Definition http (r : Request) : Exc json :=
  if String.eqb (req_url r) geocode_url
  then eret (if is_city "Berlin" r then berlin_hits else JList [])
  else if String.eqb (req_url r) forecast_url then eret forecast_body
  else if String.eqb (req_url r) weather_url then eret weather_body
  else eraise HTTPError "HTTP Error 404: Not Found".

Definition float_of_str (s : string) : option spec_float :=
  if String.eqb s "52.5" then Some (binary_normalize 53 1024 105 (-1) false)
  else if String.eqb s "13.4"
  then Some (binary_normalize 53 1024 7543529375845581 (-49) false)
  else if String.eqb s "40.0" then Some (binary_normalize 53 1024 40 0 false)
  else if String.eqb s "-75.0" then Some (binary_normalize 53 1024 (-75) 0 false)
  else None.

(** A date phrase is understood when it is ["today"]. *)
Definition dateparser_parse (phrase : string) (now : Z * Z * Z)
  : Exc (option (Z * Z * Z)) :=
  if String.eqb phrase "today" then eret (Some now) else eret None.

Definition world : World :=
  {| Tools.http := http;
     Tools.float_of_str := float_of_str;
     utcnow_date := Calendar.ymd2ord 2025 1 1;
     strptime_ymd := Calendar.strptime_iso;
     datetime := Z * Z * Z;
     now_berlin := (2025, 1, 1)%Z;
     Tools.dateparser_parse := dateparser_parse;
     strftime_ymd := fun dt => let '(y, m, d) := dt in Calendar.isoformat y m d |}.

Definition lat_berlin : spec_float := binary_normalize 53 1024 105 (-1) false.
Definition lon_berlin : spec_float :=
  binary_normalize 53 1024 7543529375845581 (-49) false.

Definition weather_call : ToolCall :=
  {| tc_name := "get_weather_from_city_name";
     tc_args := JDict [("city", JStr "Berlin"); ("country", JStr "Germany")];
     tc_id := "call_1" |}.

(** A model that asks for the weather whatever it is shown. *)
Definition looping_agent : Agent :=
  {| SYSTEM_PROMPT := "You are a helpful assistant.";
     llm_with_tools_invoke := fun _ => eret (Text "", [weather_call]);
     run_tool := fun _ => eret (Text "sunny") |}.

(** A model that answers at once. *)
Definition direct_agent (answer : content) : Agent :=
  {| SYSTEM_PROMPT := "You are a helpful assistant.";
     llm_with_tools_invoke := fun _ => eret (answer, []);
     run_tool := fun _ => eret (Text "sunny") |}.

(** A model whose service is down. *)
Definition broken_agent : Agent :=
  {| SYSTEM_PROMPT := "You are a helpful assistant.";
     llm_with_tools_invoke := fun _ => eraise OtherError "503 Service Unavailable";
     run_tool := fun _ => eret (Text "sunny") |}.


Definition store : Retriever.VectorStore :=
  {| Retriever.similarity_search := fun _ _ k =>
       eret (firstn k
         (map (fun s => {| Retriever.page_content := s; Retriever.metadata := JNull |})
              ["Berlin is the capital of Germany."; "Paris is in France.";
               "Rome"; "Oslo"; "Bern"; "Wien"; "Riga"])) |}.

End Sample.


(** ** [airflow/dags/utils/load_config.py] *)
Module LoadConfig.
Import Py.

(** The three dataclasses.  A dataclass does not check the annotated
    types, so a field holds whatever value the YAML document gave. *)
Record QdrantConfig := {
  host : json;
  port : json;
  collection_name : json;
  vector_size : json;
  distance : json
}.

Record EmbeddingModelConfig := {
  name : json;
  dimension : json;
  chunk_size : json;
  chunk_overlap : json
}.

Record DirectoryConfig := {
  source_data_dir : json;
  processed_data_dir : json
}.

Definition qdrant_fields : list string :=
  ["host"; "port"; "collection_name"; "vector_size"; "distance"].

Definition embedding_fields : list string :=
  ["name"; "dimension"; "chunk_size"; "chunk_overlap"].

(** The call of a dataclass constructor with the entries of [v]
    unpacked as keyword arguments, for a dataclass with the given
    fields and no defaults: [v] must be a mapping whose keys are
    exactly the fields.  The entries are returned for the constructor
    to read. *)
Definition keyword_arguments (fields : list string) (v : json)
  : Exc (list (string * json)) :=
  match v with
  | JDict d =>
      if negb (forallb (fun kv => existsb (String.eqb (fst kv)) fields) d)
      then eraise TypeError "__init__() got an unexpected keyword argument"
      else if negb (forallb (fun f => match lookup f d with
                                      | Some _ => true
                                      | None => false
                                      end) fields)
      then eraise TypeError "__init__() missing required positional arguments"
      else eret d
  | _ => eraise TypeError "argument after ** must be a mapping"
  end.

(** The argument bound to a field. *)
Definition argument (d : list (string * json)) (field : string) : json :=
  match lookup field d with Some v => v | None => JNull end.

(** [QdrantConfig], called with the entries of [v] as keyword arguments. *)
Definition QdrantConfig_init (v : json) : Exc QdrantConfig :=
  let! d := keyword_arguments qdrant_fields v in
  eret {| host := argument d "host";
          port := argument d "port";
          collection_name := argument d "collection_name";
          vector_size := argument d "vector_size";
          distance := argument d "distance" |}.

(** [EmbeddingModelConfig], called with the entries of [v] as keyword
    arguments. *)
Definition EmbeddingModelConfig_init (v : json) : Exc EmbeddingModelConfig :=
  let! d := keyword_arguments embedding_fields v in
  eret {| name := argument d "name";
          dimension := argument d "dimension";
          chunk_size := argument d "chunk_size";
          chunk_overlap := argument d "chunk_overlap" |}.

Definition sections : list string :=
  ["qdrant"; "source_data"; "processed_data"; "embedding_model"].

(** [k1 not in raw or k2 not in raw or ...], left to right. *)
Fixpoint some_not_in (keys : list string) (raw : json) : Exc bool :=
  match keys with
  | [] => eret false
  | k :: keys' =>
      let! present := contains_str k raw in
      if present then some_not_in keys' raw else eret true
  end.

Definition missing_sections : string :=
  "Configuration must contain 'qdrant', 'source_data', 'processed_data', and 'embedding_model' sections".

(** [load_config_from_yaml(path)]; [read_yaml path] is what
    [yaml.safe_load] returns for the file at [path], or what opening
    or parsing it raises. *)
Definition load_config_from_yaml (read_yaml : string -> Exc json) (path : string)
  : Exc (QdrantConfig * EmbeddingModelConfig * DirectoryConfig) :=
  let! raw := read_yaml path in
  let! missing := some_not_in sections raw in
  if missing then eraise ValueError missing_sections
  else
    let! qdrant := getitem_str raw "qdrant" in
    let! qdrant_config := QdrantConfig_init qdrant in
    let! embedding_model := getitem_str raw "embedding_model" in
    let! embed_config := EmbeddingModelConfig_init embedding_model in
    let! source_data := getitem_str raw "source_data" in
    let! source_data_dir := getitem_str source_data "directory" in
    let! processed_data := getitem_str raw "processed_data" in
    let! processed_data_dir := getitem_str processed_data "directory" in
    let directory_config :=
      {| source_data_dir := source_data_dir;
         processed_data_dir := processed_data_dir |} in
    eret (qdrant_config, embed_config, directory_config).

(** The YAML document that spells a configuration out. *)
Definition to_yaml
    (c : QdrantConfig * EmbeddingModelConfig * DirectoryConfig) : json :=
  let '(q, e, d) := c in
  JDict [("qdrant",
          JDict [("host", host q); ("port", port q);
                 ("collection_name", collection_name q);
                 ("vector_size", vector_size q); ("distance", distance q)]);
         ("embedding_model",
          JDict [("name", name e); ("dimension", dimension e);
                 ("chunk_size", chunk_size e);
                 ("chunk_overlap", chunk_overlap e)]);
         ("source_data", JDict [("directory", source_data_dir d)]);
         ("processed_data", JDict [("directory", processed_data_dir d)])].

(** A configuration of the shape the ingestion expects. *)
Definition ingestion_dev
  : QdrantConfig * EmbeddingModelConfig * DirectoryConfig :=
  ({| host := JStr "qdrant"; port := JInt 6333;
      collection_name := JStr "documents"; vector_size := JInt 384;
      distance := JStr "Cosine" |},
   {| name := JStr "all-MiniLM-L6-v2"; dimension := JInt 384;
      chunk_size := JInt 1000; chunk_overlap := JInt 200 |},
   {| source_data_dir := JStr "source_data";
      processed_data_dir := JStr "processed_data" |}).

End LoadConfig.

(** ** [frontend/app.py] *)
Module Frontend.
Import Py.

(** An entry of [st.session_state.messages]. *)
Record SessionMessage := { sm_role : string; sm_content : json }.

Definition greeting : SessionMessage :=
  {| sm_role := "assistant";
     sm_content :=
       JStr "Hello! I'm your intelligent assistant. How can I help you today? I can access your internal documents of check the weather." |}.

(** [init_session_state()]; [None] stands for a session state without
    ["messages"]. *)
Definition init_session_state (messages : option (list SessionMessage))
  : list SessionMessage :=
  match messages with
  | None => [greeting]
  | Some m => m
  end.

(** What [session.post] gives back: the status, and what
    [response.json()] and [response.text()] return or raise. *)
Record Response := {
  status : Z;
  json_body : Exc json;
  text_body : Exc string
}.

Definition request_data (prompt : string) (messages : list SessionMessage)
  : json :=
  let chat_history :=
    map (fun msg => JDict [("role", JStr (sm_role msg));
                           ("content", sm_content msg)]) messages in
  JDict [("message", JStr prompt); ("chat_history", JList chat_history)].

Definition invalid_format : string :=
  "Sorry, invalid response format from server.".
Definition api_error : string := "Sorry, an error occurred.".
Definition no_connection : string :=
  "Sorry, I couldn't establish a connection to the API.".

(** [process_response(prompt)] on the session's messages; [post body]
    is the outcome of posting [body] to the chat endpoint. *)
Definition process_response (post : json -> Exc Response) (prompt : string)
    (messages : list SessionMessage) : json :=
  let body :=
    let request_data := request_data prompt messages in
    let! response := post request_data in
    if (status response =? 200)%Z then
      let! data := json_body response in
      match data with
      | JDict d =>
          match lookup "response" d with
          | Some v => eret v
          | None => eret (JStr invalid_format)
          end
      | _ => eret (JStr invalid_format)
      end
    else
      let! error_text := text_body response in
      eret (JStr api_error) in
  match body with
  | inl _ => JStr no_connection
  | inr v => v
  end.

(** The script's reaction to the chat input: a prompt that is given
    is appended, answered, and the answer appended. *)
Definition chat_turn (post : json -> Exc Response)
    (messages : list SessionMessage) (prompt : string)
  : list SessionMessage :=
  if String.eqb prompt "" then messages
  else
    let messages := messages ++ [{| sm_role := "user"; sm_content := JStr prompt |}] in
    let response := process_response post prompt messages in
    messages ++ [{| sm_role := "assistant"; sm_content := response |}].

(** A session: the greeting, then one turn per prompt. *)
Definition session (post : json -> Exc Response) (prompts : list string)
  : list SessionMessage :=
  fold_left (chat_turn post) prompts (init_session_state None).

End Frontend.

(** ** The chat endpoint on the wire *)
Module Wire.
Import Py Frontend.

(** The request models of [api.py]: a [ChatMessage] needs a string
    [role] and a string [content]; a [ChatRequest] needs a string
    [message], and its [chat_history] defaults to the empty list.
    [None] stands for a body the models reject. *)
Definition parse_chat_message (v : json) : option Api.ChatMessage :=
  match v with
  | JDict d =>
      match lookup "role" d, lookup "content" d with
      | Some (JStr r), Some (JStr c) =>
          Some {| Api.role := r; Api.content := c |}
      | _, _ => None
      end
  | _ => None
  end.

Fixpoint parse_chat_history (l : list json) : option (list Api.ChatMessage) :=
  match l with
  | [] => Some []
  | v :: l' =>
      match parse_chat_message v, parse_chat_history l' with
      | Some m, Some h => Some (m :: h)
      | _, _ => None
      end
  end.

Definition parse_chat_request (v : json) : option Api.ChatRequest :=
  match v with
  | JDict d =>
      match lookup "message" d with
      | Some (JStr m) =>
          match lookup "chat_history" d with
          | None => Some {| Api.message := m; Api.chat_history := [] |}
          | Some (JList l) =>
              match parse_chat_history l with
              | Some h => Some {| Api.message := m; Api.chat_history := h |}
              | None => None
              end
          | Some _ => None
          end
      | _ => None
      end
  | _ => None
  end.

(** How the server writes its bodies: [dumps] serialises a JSON
    value, [detail body] is the error report for a rejected [body]. *)
Record Server := {
  dumps : json -> string;
  detail : json -> json
}.

Definition unprocessable (S : Server) (body : json) : Response :=
  let report := JDict [("detail", detail S body)] in
  {| status := 422;
     json_body := eret report;
     text_body := eret (dumps S report) |}.

Definition server_error : Response :=
  {| status := 500;
     json_body := eraise OtherError "Attempt to decode JSON with unexpected mimetype";
     text_body := eret "Internal Server Error" |}.

(** [POST /chat] as the server answers it: a body the request model
    rejects gets status 422, the dict [chat] returns is sent as JSON
    with status 200. *)
Definition post_chat (S : Server) (A : Graph.Agent) (body : json)
  : Exc Response :=
  match parse_chat_request body with
  | None => eret (unprocessable S body)
  | Some request =>
      match Api.chat A request with
      | inr r =>
          let answer := JDict [("response", JStr (Api.response r))] in
          eret {| status := 200;
                  json_body := eret answer;
                  text_body := eret (dumps S answer) |}
      | inl _ => eret server_error
      end
  end.

(** The history entries the session's messages are sent as. *)
Definition sent_history (messages : list SessionMessage)
  : list Api.ChatMessage :=
  map (fun msg =>
         {| Api.role := sm_role msg;
            Api.content := match sm_content msg with JStr s => s | _ => "" end |})
      messages.

(** A session whose contents are all strings. *)
Definition textual (messages : list SessionMessage) : bool :=
  forallb (fun msg => match sm_content msg with JStr _ => true | _ => false end)
          messages.

End Wire.

(** ** [airflow/dags/utils/PdfToQdrant.py] and [airflow/dags/bulk_ingestion.py] *)
Module Ingest.
Import Py LoadConfig.

(** An exception, by the name of its class and its message. *)
Record error := Error { error_class : string; error_message : string }.

Definition Out (A : Type) : Type := (error + A)%type.

(** What a run changes outside the process: the calls that returned.
    What a call that raises has written before it raised is not
    recorded. *)
Inductive Event :=
| CreateCollection (collection size distance : json)
| Upload (collection : json) (chunks : list Retriever.Document)
| MakeDirs (path : string)
| Move (src dst : string)
| XComPush (key : string) (value : list string).

(** The file system, the clock, Qdrant and the libraries.  The file
    system and Qdrant answer according to the events so far. *)
Record Platform := {
  (** [os.path.exists(path)] *)
  path_exists : list Event -> string -> bool;
  (** [datetime.now().strftime("%Y%m%d_%H%M%S")] *)
  now_stamp : list Event -> string;
  (** [glob.glob(pattern)] *)
  glob : list Event -> string -> list string;
  (** [QdrantClient(host=..., port=...)] *)
  qdrant_client : json -> json -> Out unit;
  (** [HuggingFaceEmbeddings(model_name=...)] *)
  embedding_model : json -> Out unit;
  (** [client.collection_exists(collection_name=...)] *)
  collection_exists : list Event -> json -> Out bool;
  (** [client.create_collection(...)] with its name, size and distance *)
  create_collection : json -> json -> json -> Out unit;
  (** [PyPDFLoader(file_path=...).load()] *)
  load_pdf : string -> Out (list Retriever.Document);
  (** [RecursiveCharacterTextSplitter(chunk_size=..., chunk_overlap=...)
      .split_documents(documents)] *)
  split_documents : json -> json -> list Retriever.Document
                    -> Out (list Retriever.Document);
  (** [QdrantVectorStore.from_documents(documents=..., collection_name=..., ...)] *)
  from_documents : list Retriever.Document -> json -> Out unit;
  (** [os.makedirs(path)] *)
  makedirs : string -> Out unit;
  (** [shutil.move(src, dst)] *)
  move : string -> string -> Out unit;
  (** [os.path.basename(path)] *)
  basename : string -> string;
  (** [os.path.splitext(filename)] *)
  splitext : string -> string * string
}.

(** Computations that may raise and that leave events behind. *)
Definition Eff (A : Type) : Type := list Event -> Out A * list Event.

Definition pure {A} (a : A) : Eff A := fun log => (inr a, log).
Definition fail {A} (class message : string) : Eff A :=
  fun log => (inl (Error class message), log).
Definition andthen {A B} (m : Eff A) (k : A -> Eff B) : Eff B :=
  fun log =>
    match m log with
    | (inl e, log') => (inl e, log')
    | (inr a, log') => k a log'
    end.
(** A call that changes nothing outside. *)
Definition call {A} (m : Out A) : Eff A := fun log => (m, log).
(** A call that, when it returns, has completed [ev]. *)
Definition perform (m : Out unit) (ev : Event) : Eff unit :=
  fun log =>
    match m with
    | inl e => (inl e, log)
    | inr tt => (inr tt, log ++ [ev])
    end.

Record DocumentProcessor := {
  QDRANT_HOST : json;
  QDRANT_PORT : json;
  QDRANT_COLLECTION_NAME : json;
  DISTANCE_METRIC : json;
  EMBEDDING_MODEL_NAME : json;
  EMBEDDING_DIMENSION : json;
  CHUNK_SIZE : json;
  CHUNK_OVERLAP : json
}.

(** [DocumentProcessor.__init__] *)
Definition DocumentProcessor_init (qdrant_config : QdrantConfig)
    (embed_config : EmbeddingModelConfig) : DocumentProcessor :=
  {| QDRANT_HOST := host qdrant_config;
     QDRANT_PORT := port qdrant_config;
     QDRANT_COLLECTION_NAME := collection_name qdrant_config;
     DISTANCE_METRIC := distance qdrant_config;
     EMBEDDING_MODEL_NAME := name embed_config;
     EMBEDDING_DIMENSION := vector_size qdrant_config;
     CHUNK_SIZE := chunk_size embed_config;
     CHUNK_OVERLAP := chunk_overlap embed_config |}.

Section WithPlatform.
Variable P : Platform.

(** [None] is the [None] returned when loading or splitting raised. *)
Definition extract_chunks_from_pdf (self : DocumentProcessor) (pdf_path : string)
  : option (list Retriever.Document) :=
  match load_pdf P pdf_path with
  | inl _ => None
  | inr documents =>
      match split_documents P (CHUNK_SIZE self) (CHUNK_OVERLAP self) documents with
      | inl _ => None
      | inr chunks => Some chunks
      end
  end.

Definition get_embedding_model (self : DocumentProcessor) : Eff unit :=
  call (embedding_model P (EMBEDDING_MODEL_NAME self)).

Definition get_qdrant_client (self : DocumentProcessor) : Eff unit :=
  call (qdrant_client P (QDRANT_HOST self) (QDRANT_PORT self)).

Definition setup_qdrant_collection (self : DocumentProcessor) : Eff unit :=
  andthen (fun log => (collection_exists P log (QDRANT_COLLECTION_NAME self), log))
    (fun exists_ =>
       if exists_ : bool then pure tt
       else
         perform
           (create_collection P (QDRANT_COLLECTION_NAME self)
              (EMBEDDING_DIMENSION self) (DISTANCE_METRIC self))
           (CreateCollection (QDRANT_COLLECTION_NAME self)
              (EMBEDDING_DIMENSION self) (DISTANCE_METRIC self))).

Definition vectorize_and_upload (self : DocumentProcessor)
    (documents : list Retriever.Document) : Eff unit :=
  perform (from_documents P documents (QDRANT_COLLECTION_NAME self))
          (Upload (QDRANT_COLLECTION_NAME self) documents).

Definition no_chunks : string := "No chunks extracted from PDF".

Definition process_pdf_file (self : DocumentProcessor) (pdf_file_path : string)
  : Eff unit :=
  fun log =>
    if negb (path_exists P log pdf_file_path)
    then fail "FileNotFoundError" ("File not found: " ++ pdf_file_path)%string log
    else
      andthen (get_qdrant_client self) (fun _ =>
      andthen (get_embedding_model self) (fun _ =>
      andthen (setup_qdrant_collection self) (fun _ =>
        match extract_chunks_from_pdf self pdf_file_path with
        | None | Some [] => fail "ValueError" no_chunks
        | Some documents => vectorize_and_upload self documents
        end))) log.

(** [main(pdf_file_path=...)]; [None] is the default argument. *)
Definition main (self : DocumentProcessor) (pdf_file_path : option string)
  : Eff unit :=
  match pdf_file_path with
  | None => fail "ValueError" "Please provide a valid PDF file path."
  | Some path =>
      if String.eqb path ""
      then fail "ValueError" "Please provide a valid PDF file path."
      else process_pdf_file self path
  end.

(** [os.path.join(a, b)] for POSIX paths. *)
Definition path_join (a b : string) : string :=
  if String.prefix "/" b then b
  else if String.eqb a "" then b
  else match String.get (String.length a - 1) a with
       | Some "/"%char => (a ++ b)%string
       | _ => (a ++ "/" ++ b)%string
       end.

Definition BASE_DIR : string := "/opt/airflow/".

(** [f"{BASE_DIR}/{directory}"] *)
Definition under_base (directory : string) : string :=
  (BASE_DIR ++ "/" ++ directory)%string.


(** The body of the loop of [process_all_pdfs] for one document. *)
Definition process_one (qdrant_config : QdrantConfig)
    (embed_config : EmbeddingModelConfig) (processed_data_dir : string)
    (document : string) : Eff unit :=
  let dp := DocumentProcessor_init qdrant_config embed_config in
  andthen (main dp (Some document)) (fun _ =>
  andthen (fun log =>
             if negb (path_exists P log processed_data_dir)
             then perform (makedirs P processed_data_dir)
                          (MakeDirs processed_data_dir) log
             else (inr tt, log)) (fun _ =>
  fun log =>
    let filename := basename P document in
    let timestamp := now_stamp P log in
    let '(name, ext) := splitext P filename in
    let destination :=
      path_join (under_base processed_data_dir)
                (name ++ "_" ++ timestamp ++ ext)%string in
    perform (move P document destination) (Move document destination) log)).

Fixpoint process_each (qdrant_config : QdrantConfig)
    (embed_config : EmbeddingModelConfig) (processed_data_dir : string)
    (documents : list string) : Eff unit :=
  match documents with
  | [] => pure tt
  | document :: rest =>
      andthen (process_one qdrant_config embed_config processed_data_dir document)
        (fun _ => process_each qdrant_config embed_config processed_data_dir rest)
  end.

(** [process_all_pdfs]; [pdf_file_paths] is what [xcom_pull] returns
    ([None] when nothing was pushed), the result [true] is [True]. *)
Definition process_all_pdfs (qdrant_config : QdrantConfig)
    (embed_config : EmbeddingModelConfig) (processed_data_dir : string)
    (pdf_file_paths : option (list string)) : Eff bool :=
  match pdf_file_paths with
  | None | Some [] => pure true
  | Some documents =>
      andthen (process_each qdrant_config embed_config processed_data_dir documents)
        (fun _ => pure true)
  end.


End WithPlatform.

(** The events of a list that are uploads. *)
Definition uploads (log : list Event) : list (json * list Retriever.Document) :=
  flat_map (fun ev => match ev with
                      | Upload c chunks => [(c, chunks)]
                      | _ => []
                      end) log.

(** The sources of the moves of a list of events. *)
Definition moved (log : list Event) : list string :=
  flat_map (fun ev => match ev with
                      | Move src _ => [src]
                      | _ => []
                      end) log.

End Ingest.

(** ** An installation on which the ingestion is run *)
Module Site.
Import Py LoadConfig Ingest.

Definition source : string := "/opt/airflow//source_data".
Definition paris : string := "/opt/airflow//source_data/Paris.pdf".
Definition rome : string := "/opt/airflow//source_data/Rome.pdf".
Definition oslo : string := "/opt/airflow//source_data/Oslo.pdf".

Definition page (text : string) : Retriever.Document :=
  {| Retriever.page_content := text; Retriever.metadata := JNull |}.

Definition made (log : list Event) (path : string) : bool :=
  existsb (fun ev => match ev with
                     | MakeDirs p => String.eqb p path
                     | _ => false
                     end) log.

Definition created (log : list Event) : bool :=
  existsb (fun ev => match ev with
                     | CreateCollection _ _ _ => true
                     | _ => false
                     end) log.

(** Three PDF files wait in the source directory; the second cannot
    be read.  Qdrant is up and holds no collection yet. *)
Definition platform : Platform :=
  {| path_exists := fun log path =>
       existsb (String.eqb path) [source; paris; rome; oslo] || made log path;
     now_stamp := fun _ => "20251118_120000";
     glob := fun _ pattern =>
       if String.eqb pattern "/opt/airflow//source_data/*.pdf"
       then [paris; rome; oslo] else [];
     qdrant_client := fun _ _ => inr tt;
     embedding_model := fun _ => inr tt;
     collection_exists := fun log _ => inr (created log);
     create_collection := fun _ _ _ => inr tt;
     load_pdf := fun path =>
       if String.eqb path rome
       then inl (Error "PdfReadError" "EOF marker not found")
       else inr [page "Paris is the capital of France."];
     split_documents := fun _ _ documents => inr documents;
     from_documents := fun _ _ => inr tt;
     makedirs := fun _ => inr tt;
     move := fun _ _ => inr tt;
     basename := fun path =>
       if String.eqb path paris then "Paris.pdf"
       else if String.eqb path rome then "Rome.pdf"
       else if String.eqb path oslo then "Oslo.pdf" else path;
     splitext := fun filename =>
       if String.eqb filename "Paris.pdf" then ("Paris", ".pdf")
       else if String.eqb filename "Rome.pdf" then ("Rome", ".pdf")
       else if String.eqb filename "Oslo.pdf" then ("Oslo", ".pdf")
       else (filename, "") |}.


Definition processor : DocumentProcessor :=
  DocumentProcessor_init (fst (fst ingestion_dev)) (snd (fst ingestion_dev)).

End Site.

(** ** Notions used to state properties of the graph and the endpoint *)
Module Notions.
Import Py Graph.

(** The nodes [a, b, a, b, ...] met along [k] supersteps that start
    at [a] and go back and forth between the two nodes. *)
Fixpoint alternation (start : Node) (k : nat) : list Node :=
  match k with
  | O => []
  | S k' =>
      start :: alternation (match start with reasoner => tool | tool => reasoner end) k'
  end.

(** A message the graph itself produces. *)
Definition is_reply (m : Message) : bool :=
  match m with
  | AIMessage _ _ | ToolMessage _ _ => true
  | SystemMessage _ | HumanMessage _ => false
  end.

(** The [tool_call_id] of a tool message. *)
Definition message_tool_call_id (m : Message) : option string :=
  match m with
  | ToolMessage _ id => Some id
  | _ => None
  end.

(** What one entry of the request's history contributes to the
    history handed to [answer_query]. *)
Definition history_message (msg : Api.ChatMessage) : list Message :=
  if String.eqb (Api.role msg) "user"
  then [HumanMessage (Text (Api.content msg))]
  else if String.eqb (Api.role msg) "assistant"
  then [AIMessage (Text (Api.content msg)) []]
  else [].

(** A message of the two kinds [convert_history] builds. *)
Definition is_turn (m : Message) : bool :=
  match m with
  | HumanMessage (Text _) | AIMessage (Text _) [] => true
  | _ => false
  end.

End Notions.

(** ** Further environments on which the model is run *)
Module Scenario.
Import Py Tools Graph.

(** The sample world with another HTTP behaviour. *)
Definition with_http (h : Request -> Exc json) : World :=
  {| Tools.http := h;
     Tools.float_of_str := Sample.float_of_str;
     utcnow_date := utcnow_date Sample.world;
     strptime_ymd := Calendar.strptime_iso;
     datetime := Z * Z * Z;
     now_berlin := (2025, 1, 1)%Z;
     Tools.dateparser_parse := Sample.dateparser_parse;
     strftime_ymd := fun dt => let '(y, m, d) := dt in Calendar.isoformat y m d |}.

(** No server can be reached. *)
Definition unreachable : World :=
  with_http (fun _ => eraise URLError "<urlopen error [Errno 111] Connection refused>").

(** Every read of a response times out. *)
Definition timing_out : World :=
  with_http (fun _ => eraise OtherError "The read operation timed out").

(** A geocoder whose hits carry the given fields only. *)
Definition geocoder_returning (hit : list (string * json)) : World :=
  with_http (fun r =>
    if String.eqb (req_url r) geocode_url then eret (JList [JDict hit])
    else Sample.http r).

(** A forecast service that sends no cloud cover column. *)
Definition daily_without_cloudcover : list (string * json) :=
  [("time", JList Sample.january);
   ("temperature_2m_max", Sample.column 0);
   ("temperature_2m_min", Sample.column (-10));
   ("precipitation_sum", Sample.column 20)].

Definition without_cloudcover : World :=
  with_http (fun r =>
    if String.eqb (req_url r) forecast_url
    then eret (JDict [("daily", JDict daily_without_cloudcover)])
    else Sample.http r).

(** A date parser that raises on every phrase. *)
Definition with_failing_parser : World :=
  {| Tools.http := Sample.http;
     Tools.float_of_str := Sample.float_of_str;
     utcnow_date := utcnow_date Sample.world;
     strptime_ymd := Calendar.strptime_iso;
     datetime := Z * Z * Z;
     now_berlin := (2025, 1, 1)%Z;
     Tools.dateparser_parse := fun _ _ => eraise ValueError "Unknown language";
     strftime_ymd := fun dt => let '(y, m, d) := dt in Calendar.isoformat y m d |}.

Definition forecast_call : ToolCall :=
  {| tc_name := "get_weather_forecast_from_city_name";
     tc_args := JDict [("city", JStr "Berlin"); ("country", JStr "Germany");
                       ("forecast_date", JStr "2025-01-02")];
     tc_id := "call_2" |}.

(** A model that asks for two tools at once, then answers. *)
Definition two_tool_agent : Agent :=
  {| SYSTEM_PROMPT := "You are a helpful assistant.";
     llm_with_tools_invoke := fun msgs =>
       match last_item msgs with
       | inr (ToolMessage _ _) => eret (Text "Sunny, 3 degrees.", [])
       | _ => eret (Text "", [Sample.weather_call; forecast_call])
       end;
     run_tool := fun c => eret (Text (tc_name c)) |}.

(** A model whose tools are out of order. *)
Definition broken_tool_agent : Agent :=
  {| SYSTEM_PROMPT := "You are a helpful assistant.";
     llm_with_tools_invoke := fun _ => eret (Text "", [Sample.weather_call]);
     run_tool := fun _ => eraise OtherError "tool crashed" |}.

(** A model that asks for the weather and then answers with a picture
    and no text. *)
Definition image_only_agent : Agent :=
  {| SYSTEM_PROMPT := "You are a helpful assistant.";
     llm_with_tools_invoke := fun msgs =>
       match last_item msgs with
       | inr (ToolMessage _ _) =>
           eret (Parts [PartDict [("type", JStr "image"); ("url", JStr "...")]],
                 [])
       | _ => eret (Text "", [Sample.weather_call])
       end;
     run_tool := fun c => eret (Text (tc_name c)) |}.

End Scenario.

(* ===================================================================== *)
(** * Part II: properties                                                *)
(* ===================================================================== *)

Import Py Tools Graph.

(** ** Python values *)
Section PyFacts.

Lemma is_str_true s x : is_str s x = true <-> x = JStr s.
Proof.
  destruct x; simpl; split; intros H; try discriminate.
  - apply String.eqb_eq in H. now subst.
  - injection H as ->. apply String.eqb_refl.
Qed.

Lemma contains_str_list s l :
  contains_str s (JList l) = inr true <-> In (JStr s) l.
Proof.
  simpl. unfold eret. split.
  - intros H. injection H as H. apply existsb_exists in H.
    destruct H as (x & Hin & Hx). apply is_str_true in Hx. now subst.
  - intros H. f_equal. apply existsb_exists. exists (JStr s).
    split; [exact H | now apply is_str_true].
Qed.

Lemma list_index_In s l :
  In (JStr s) l ->
  exists i, list_index s l = Some i /\ (i < length l)%nat.
Proof.
  induction l as [|x l IH]; simpl; [tauto|].
  intros [-> | Hin].
  - exists 0%nat. rewrite (proj2 (is_str_true s (JStr s)) eq_refl).
    split; [reflexivity | lia].
  - destruct (is_str s x).
    + exists 0%nat. split; [reflexivity | lia].
    + destruct (IH Hin) as (i & Hi & Hlt). exists (S i).
      rewrite Hi. split; [reflexivity | lia].
Qed.

Lemma list_index_nth s l i :
  list_index s l = Some i -> nth_error l i = Some (JStr s).
Proof.
  revert i. induction l as [|x l IH]; simpl; [discriminate|].
  intros i. destruct (is_str s x) eqn:Hx.
  - intros [= <-]. simpl. f_equal. now apply is_str_true.
  - destruct (list_index s l) as [j|]; simpl; [|discriminate].
    intros [= <-]. simpl. now apply IH.
Qed.

Lemma join_strings sep l : join sep (map JStr l) = inr (String.concat sep l).
Proof.
  induction l as [|s l IH]; [reflexivity|].
  cbn [map join String.concat]. destruct l as [|t l]; [reflexivity|].
  cbn [map] in *. rewrite IH. reflexivity.
Qed.

Lemma caught_by_spec classes e :
  caught_by classes e = true <-> In (exn_class e) classes.
Proof.
  unfold caught_by. rewrite existsb_exists. split.
  - intros (c & Hin & Hc). destruct (exn_class e), c; try discriminate; exact Hin.
  - intros Hin. exists (exn_class e). split; [exact Hin|].
    now destruct (exn_class e).
Qed.

End PyFacts.

(** ** The weather tools *)
Section ToolFacts.
Variable W : World.

Local Abbreviation today := (utcnow_date W).

(** Outside the window of eleven days no request is issued. *)
Lemma forecast_out_of_window lat lon fd d log :
  strptime_ymd W fd = Some d ->
  (d < today \/ today + 10 < d)%Z ->
  get_weather_forecast W lat lon fd log = (inr None, log).
Proof.
  intros Hp Hd. unfold get_weather_forecast. rewrite Hp.
  replace ((d <? today)%Z || (d >? today + 10)%Z) with true; [reflexivity|].
  symmetry. apply orb_true_iff. rewrite Z.ltb_lt, Z.gtb_ltb, Z.ltb_lt. lia.
Qed.

(** Inside the window the answer is that of the fetch. *)
Lemma forecast_in_window lat lon fd d log :
  strptime_ymd W fd = Some d ->
  (today <= d <= today + 10)%Z ->
  get_weather_forecast W lat lon fd log = fetch_forecast W lat lon fd log.
Proof.
  intros Hp Hd. unfold get_weather_forecast. rewrite Hp.
  replace ((d <? today)%Z || (d >? today + 10)%Z) with false; [reflexivity|].
  symmetry. apply orb_false_iff. rewrite Z.ltb_ge, Z.gtb_ltb, Z.ltb_ge. lia.
Qed.

(** The fetch in terms of the body the server sent. *)
Lemma fetch_forecast_body lat lon fd log data :
  http W (request forecast_url (forecast_params lat lon) user_agent) = inr data ->
  fetch_forecast W lat lon fd log =
  (match daily_entry data fd with
   | inl e =>
       if caught_by [URLError; HTTPError; KeyError; ValueError; IndexError] e
       then inr None else inl e
   | inr r => inr r
   end,
   log ++ [request forecast_url (forecast_params lat lon) user_agent]).
Proof.
  intros Hh. unfold fetch_forecast, try_except, bind, _http_get, lift.
  rewrite Hh. destruct (daily_entry data fd) as [e|r]; [|reflexivity].
  unfold ret. now destruct (caught_by _ e).
Qed.

Lemma fetch_forecast_Some lat lon fd log r log' :
  fetch_forecast W lat lon fd log = (inr (Some r), log') ->
  exists data,
    http W (request forecast_url (forecast_params lat lon) user_agent) = inr data
    /\ daily_entry data fd = inr (Some r).
Proof.
  unfold fetch_forecast, try_except, bind, _http_get, lift.
  destruct (http W _) as [e|data] eqn:Hh.
  - unfold ret. destruct (caught_by _ e); discriminate.
  - exists data. split; [reflexivity|].
    destruct (daily_entry data fd) as [e|o].
    + unfold ret in H. destruct (caught_by _ e); discriminate.
    + now injection H as -> _.
Qed.

Lemma daily_entry_Some data fd r :
  daily_entry data fd = inr (Some r) ->
  exists times,
    daily_times data = inr times
    /\ contains_str fd times = inr true
    /\ lookup "date" r = Some (JStr fd).
Proof.
  unfold daily_entry, daily_times, ebind.
  destruct (contains_str "daily" data) as [e|[|]]; try discriminate.
  destruct (getitem_str data "daily") as [e|daily]; try discriminate.
  destruct (get daily "time" (JList [])) as [e|times]; try discriminate.
  destruct (contains_str fd times) as [e|[|]] eqn:Hin; try discriminate.
  destruct (index_str times fd) as [e|idx]; try discriminate.
  destruct (column_at daily "temperature_2m_max" idx); try discriminate.
  destruct (column_at daily "temperature_2m_min" idx); try discriminate.
  destruct (column_at daily "precipitation_sum" idx); try discriminate.
  destruct (get daily "cloudcover_mean" (JList [JNull])) as [e|col];
    try discriminate.
  destruct (getitem_int col idx); try discriminate.
  intros [= <-]. exists times. split; [reflexivity|]. split; [exact Hin|].
  reflexivity.
Qed.

Lemma daily_entry_absent data fd l :
  daily_times data = inr (JList l) ->
  ~ In (JStr fd) l ->
  daily_entry data fd = inr None.
Proof.
  unfold daily_entry, daily_times, ebind. intros Ht Hn.
  destruct data; try discriminate. simpl in *.
  destruct (lookup "daily" d) as [daily|]; try discriminate. simpl in *.
  rewrite Ht. simpl.
  destruct (existsb (is_str fd) l) eqn:Hex; [|reflexivity].
  exfalso. apply Hn. now apply contains_str_list; simpl; rewrite Hex.
Qed.

Lemma column_at_covered daily key col idx n :
  getitem_str daily key = inr (JList col) ->
  (idx < n)%nat -> (n <= length col)%nat ->
  exists v, column_at daily key idx = inr v.
Proof.
  intros Hc Hi Hn. unfold column_at, ebind. rewrite Hc. simpl.
  destruct (nth_error col idx) as [v|] eqn:Hv; [now exists v|].
  apply nth_error_None in Hv. lia.
Qed.

Lemma covers_column daily n key :
  covers daily n = true -> In key forecast_columns ->
  exists col, getitem_str daily key = inr (JList col) /\ (n <= length col)%nat.
Proof.
  unfold covers. rewrite forallb_forall. intros H Hin.
  specialize (H key Hin).
  destruct (getitem_str daily key) as [e|[]]; try discriminate.
  exists l. split; [reflexivity | now apply Nat.leb_le].
Qed.

Lemma daily_entry_present data daily fd l :
  getitem_str data "daily" = inr daily ->
  get daily "time" (JList []) = inr (JList l) ->
  In (JStr fd) l ->
  covers daily (length l) = true ->
  exists r, daily_entry data fd = inr (Some r)
            /\ lookup "date" r = Some (JStr fd).
Proof.
  intros Hd Ht Hin Hc.
  destruct (list_index_In _ _ Hin) as (idx & Hidx & Hlt).
  assert (Hcol : forall key, In key forecast_columns ->
            exists v, column_at daily key idx = inr v).
  { intros key Hk. destruct (covers_column _ _ _ Hc Hk) as (col & Hg & Hn).
    eapply column_at_covered; eauto. }
  destruct (Hcol "temperature_2m_max") as (v1 & H1); [simpl; tauto|].
  destruct (Hcol "temperature_2m_min") as (v2 & H2); [simpl; tauto|].
  destruct (Hcol "precipitation_sum") as (v3 & H3); [simpl; tauto|].
  destruct (Hcol "cloudcover_mean") as (v4 & H4); [simpl; tauto|].
  assert (H4' : (let! col := get daily "cloudcover_mean" (JList [JNull]) in
                 getitem_int col idx) = inr v4).
  { unfold column_at, ebind in H4. destruct daily; try discriminate.
    simpl in *. destruct (lookup "cloudcover_mean" d); [exact H4 | discriminate]. }
  unfold daily_entry.
  assert (Hhas : contains_str "daily" data = inr true).
  { destruct data; try discriminate. simpl in *.
    destruct (lookup "daily" d); [reflexivity | discriminate]. }
  rewrite Hhas. cbn [ebind]. rewrite Hd. cbn [ebind]. rewrite Ht. cbn [ebind].
  rewrite (proj2 (contains_str_list fd l) Hin). cbn [ebind].
  cbn [index_str]. rewrite Hidx. cbn [ebind eret].
  rewrite H1, H2, H3. cbn [ebind]. rewrite H4'. cbn [ebind].
  eexists. split; reflexivity.
Qed.

(** The geocoder's answer decides what [get_latitude_longitude] returns. *)
Lemma get_latitude_longitude_body city country log data :
  http W (request geocode_url (geocode_params city country) user_agent) = inr data ->
  get_latitude_longitude W city country log =
  (match first_coordinates W data with
   | inl e =>
       if caught_by [URLError; HTTPError; KeyError; IndexError; ValueError] e
       then inr None else inl e
   | inr r => inr r
   end,
   log ++ [request geocode_url (geocode_params city country) user_agent]).
Proof.
  intros Hh. unfold get_latitude_longitude, try_except, bind, _http_get, lift.
  rewrite Hh. destruct (first_coordinates W data) as [e|r]; [|reflexivity].
  unfold ret. now destruct (caught_by _ e).
Qed.

(** C2: forecast-by-date returns an entry only for a date inside the
    window [today, today + 10] that occurs in the daily series of the
    response by exact string match; a date exactly ten days ahead
    that the series covers returns an entry; a date eleven days ahead
    returns null, and so does a date absent from the series. *)
Theorem forecast_by_date_window lat lon fd log :
  let req := request forecast_url (forecast_params lat lon) user_agent in
  (forall r log',
      get_weather_forecast W lat lon fd log = (inr (Some r), log') ->
      exists d data times,
        strptime_ymd W fd = Some d
        /\ (today <= d <= today + 10)%Z
        /\ http W req = inr data
        /\ daily_times data = inr times
        /\ contains_str fd times = inr true
        /\ (forall l, times = JList l -> In (JStr fd) l)
        /\ lookup "date" r = Some (JStr fd))
  /\ (forall data daily l,
        strptime_ymd W fd = Some (today + 10)%Z ->
        http W req = inr data ->
        getitem_str data "daily" = inr daily ->
        get daily "time" (JList []) = inr (JList l) ->
        In (JStr fd) l ->
        covers daily (length l) = true ->
        exists r,
          get_weather_forecast W lat lon fd log = (inr (Some r), log ++ [req])
          /\ lookup "date" r = Some (JStr fd))
  /\ (strptime_ymd W fd = Some (today + 11)%Z ->
       get_weather_forecast W lat lon fd log = (inr None, log))
  /\ (forall d data l,
        strptime_ymd W fd = Some d ->
        (today <= d <= today + 10)%Z ->
        http W req = inr data ->
        daily_times data = inr (JList l) ->
        ~ In (JStr fd) l ->
        get_weather_forecast W lat lon fd log = (inr None, log ++ [req])).
Proof.
  intros req. repeat split.
  - intros r log' H.
    destruct (strptime_ymd W fd) as [d|] eqn:Hp.
    2:{ unfold get_weather_forecast in H. rewrite Hp in H. discriminate. }
    assert (Hd : (today <= d <= today + 10)%Z).
    { destruct (Z_lt_ge_dec d today) as [Hlo|Hlo];
        [rewrite (forecast_out_of_window _ _ _ _ _ Hp (or_introl Hlo)) in H;
         discriminate|].
      destruct (Z_lt_ge_dec (today + 10) d) as [Hhi|Hhi];
        [rewrite (forecast_out_of_window _ _ _ _ _ Hp (or_intror Hhi)) in H;
         discriminate|].
      lia. }
    rewrite (forecast_in_window _ _ _ _ _ Hp Hd) in H.
    destruct (fetch_forecast_Some _ _ _ _ _ _ H) as (data & Hh & He).
    destruct (daily_entry_Some _ _ _ He) as (times & Ht & Hc & Hr).
    exists d, data, times. repeat split; try assumption; try lia.
    intros l ->. now apply contains_str_list.
  - intros data daily l Hp Hh Hd Ht Hin Hc.
    rewrite (forecast_in_window _ _ _ _ _ Hp) by lia.
    rewrite (fetch_forecast_body _ _ _ _ _ Hh).
    destruct (daily_entry_present _ _ _ _ Hd Ht Hin Hc) as (r & Hr & Hdate).
    exists r. rewrite Hr. split; [reflexivity | exact Hdate].
  - intros Hp. apply (forecast_out_of_window _ _ _ _ _ Hp). lia.
  - intros d data l Hp Hd Hh Ht Hn.
    rewrite (forecast_in_window _ _ _ _ _ Hp Hd).
    rewrite (fetch_forecast_body _ _ _ _ _ Hh).
    now rewrite (daily_entry_absent _ _ _ Ht Hn).
Qed.

(** C10: a date string that [strptime] rejects makes forecast-by-date
    return null, without an exception and without any request. *)
Theorem forecast_bad_date_format lat lon fd log :
  strptime_ymd W fd = None ->
  get_weather_forecast W lat lon fd log = (inr None, log).
Proof.
  intros Hp. unfold get_weather_forecast. now rewrite Hp.
Qed.

(** C4: when the geocoder returns no result, weather-by-city returns
    null and raises nothing; when it returns results, the weather is
    fetched for the coordinates of the first one, whatever follows it. *)
Theorem weather_by_city_geocoding city country log :
  let req := request geocode_url (geocode_params city country) user_agent in
  (http W req = inr (JList []) ->
   get_weather_from_city_name W city country log = (inr None, log ++ [req]))
  /\ (forall first rest lat lon,
        http W req = inr (JList (first :: rest)) ->
        (let! v := getitem_str first "lat" in float (float_of_str W) v) = inr lat ->
        (let! v := getitem_str first "lon" in float (float_of_str W) v) = inr lon ->
        get_weather_from_city_name W city country log =
        get_weather W lat lon (log ++ [req])).
Proof.
  intros req. split.
  - intros Hh. unfold get_weather_from_city_name, bind.
    now rewrite (get_latitude_longitude_body _ _ _ _ Hh).
  - intros first rest lat lon Hh Hlat Hlon.
    unfold get_weather_from_city_name, bind.
    rewrite (get_latitude_longitude_body _ _ _ _ Hh).
    unfold first_coordinates. cbn [truthy getitem_int nth_error eret ebind].
    unfold ebind in Hlat, Hlon |- *.
    destruct (getitem_str first "lat") as [e|vlat]; [discriminate|].
    rewrite Hlat.
    destruct (getitem_str first "lon") as [e|vlon]; [discriminate|].
    now rewrite Hlon.
Qed.

(** C3: when the date parser does not understand the phrase,
    forecast-by-phrase asks forecast-by-date for today's date
    (Berlin time): it returns what that call returns, issuing the
    same requests, and returns null where that call raises. *)
Theorem forecast_by_phrase_fallback city country phrase log :
  dateparser_parse W phrase (now_berlin W) = inr None ->
  let today_str := strftime_ymd W (now_berlin W) in
  (forall r log',
      get_weather_forecast_from_city_name W city country today_str log
      = (inr r, log') ->
      get_weather_forecast_from_city_name_date_phrase W city country phrase log
      = (inr r, log'))
  /\ (forall e log',
        get_weather_forecast_from_city_name W city country today_str log
        = (inl e, log') ->
        get_weather_forecast_from_city_name_date_phrase W city country phrase log
        = (inr None, log')).
Proof.
  intros Hp today_str.
  unfold get_weather_forecast_from_city_name_date_phrase,
    try_except_Exception, bind, lift.
  rewrite Hp. fold today_str.
  split; intros r log' H; now rewrite H.
Qed.

End ToolFacts.

Section ToolWitnesses.

Local Abbreviation lat := Sample.lat_berlin.
Local Abbreviation lon := Sample.lon_berlin.
Local Abbreviation req_forecast :=
  (request forecast_url (forecast_params lat lon) user_agent).

Lemma forecast_by_date_window_witness :
  (exists r, get_weather_forecast Sample.world lat lon "2025-01-11" []
             = (inr (Some r), [req_forecast])
             /\ lookup "date" r = Some (JStr "2025-01-11"))
  /\ get_weather_forecast Sample.world lat lon "2025-01-12" [] = (inr None, [])
  /\ get_weather_forecast Sample.world lat lon "2025-01-05" []
     = (inr None, [req_forecast])
  /\ In (JStr "2025-01-03") Sample.january.
Proof.
  destruct (forecast_by_date_window Sample.world lat lon "2025-01-11" [])
    as (_ & Hhit & _).
  destruct (forecast_by_date_window Sample.world lat lon "2025-01-12" [])
    as (_ & _ & Hout & _).
  destruct (forecast_by_date_window Sample.world lat lon "2025-01-05" [])
    as (_ & _ & _ & Hgap).
  destruct (forecast_by_date_window Sample.world lat lon "2025-01-03" [])
    as (Honly & _).
  split; [|split; [|split]].
  - apply (Hhit Sample.forecast_body
             (JDict [("time", JList Sample.january);
                     ("temperature_2m_max", Sample.column 0);
                     ("temperature_2m_min", Sample.column (-10));
                     ("precipitation_sum", Sample.column 20);
                     ("cloudcover_mean", Sample.column 50)])
             Sample.january); try reflexivity.
    vm_compute. tauto.
  - apply Hout. reflexivity.
  - apply (Hgap (Calendar.ymd2ord 2025 1 5) Sample.forecast_body Sample.january);
      try reflexivity.
    + vm_compute. split; discriminate.
    + vm_compute. intuition discriminate.
  - destruct (Honly [("date", JStr "2025-01-03"); ("temperature_max", JInt 3);
                     ("temperature_min", JInt (-7));
                     ("precipitation_sum", JInt 23);
                     ("cloudcover_mean", JInt 53)] [req_forecast] eq_refl)
      as (d & data & times & _ & _ & Hh & Ht & _ & Hl & _).
    apply Hl. vm_compute in Hh. injection Hh as <-.
    vm_compute in Ht. injection Ht as <-. reflexivity.
Defined.

Lemma forecast_bad_date_format_witness :
  get_weather_forecast Sample.world lat lon "tomorrow" [] = (inr None, []).
Proof. apply forecast_bad_date_format. reflexivity. Defined.

Lemma weather_by_city_geocoding_witness :
  get_weather_from_city_name Sample.world "Atlantis" "Nowhere" []
  = (inr None, [request geocode_url (geocode_params "Atlantis" "Nowhere") user_agent])
  /\ get_weather_from_city_name Sample.world "Berlin" "Germany" []
     = get_weather Sample.world lat lon
         [request geocode_url (geocode_params "Berlin" "Germany") user_agent].
Proof.
  split.
  - apply (proj1 (weather_by_city_geocoding Sample.world "Atlantis" "Nowhere" [])).
    reflexivity.
  - eapply (proj2 (weather_by_city_geocoding Sample.world "Berlin" "Germany" []));
      reflexivity.
Defined.

Lemma forecast_by_phrase_fallback_witness :
  exists r log',
    get_weather_forecast_from_city_name Sample.world "Berlin" "Germany"
      "2025-01-01" [] = (inr r, log')
    /\ get_weather_forecast_from_city_name_date_phrase Sample.world
         "Berlin" "Germany" "" [] = (inr r, log').
Proof.
  destruct (forecast_by_phrase_fallback Sample.world "Berlin" "Germany" "" []
              eq_refl) as [Hsame _].
  eexists. eexists. split.
  - vm_compute. reflexivity.
  - apply Hsame. vm_compute. reflexivity.
Defined.

End ToolWitnesses.

(** C3, as a plain equivalence with the by-date tool: false.  When the
    service times out, the phrase [""] is not understood by the date
    parser, the by-date tool called with today's date raises the
    time-out, and the phrase tool returns null instead: its
    [except Exception] turns every exception of the by-date tool into
    null. *)
Lemma forecast_by_phrase_differs_when_by_date_raises :
  dateparser_parse Scenario.timing_out "" (now_berlin Scenario.timing_out)
  = inr None
  /\ strftime_ymd Scenario.timing_out (now_berlin Scenario.timing_out)
     = "2025-01-01"
  /\ get_weather_forecast_from_city_name Scenario.timing_out
       "Berlin" "Germany" "2025-01-01" []
     = (inl (Exn OtherError "The read operation timed out"),
        [request geocode_url (geocode_params "Berlin" "Germany") user_agent])
  /\ get_weather_forecast_from_city_name_date_phrase Scenario.timing_out
       "Berlin" "Germany" "" []
     = (inr None,
        [request geocode_url (geocode_params "Berlin" "Germany") user_agent])
  /\ ~ (forall W city country phrase log,
          dateparser_parse W phrase (now_berlin W) = inr None ->
          get_weather_forecast_from_city_name_date_phrase W city country
            phrase log
          = get_weather_forecast_from_city_name W city country
              (strftime_ymd W (now_berlin W)) log).
Proof.
  split; [reflexivity|]. split; [reflexivity|].
  split; [reflexivity|]. split; [reflexivity|].
  intros H.
  specialize (H Scenario.timing_out "Berlin" "Germany" "" [] eq_refl).
  vm_compute in H. discriminate H.
Qed.

(** ** The retriever tool *)
Section RetrieverFacts.
Variable V : Retriever.VectorStore.

(** C9: the retriever tool asks the vector store for the [k] best
    passages, [k] being 5 unless configured otherwise, and returns
    their texts in order, separated by blank lines: two line feeds
    (character 10) between consecutive texts, none before the first
    or after the last. *)
Theorem retriever_tool_joins_top_k url collection query :
  Retriever.top_k (Retriever.get_retriever url collection) = 5%nat
  /\ retriever_tool V (Retriever.get_retriever url collection) query
     = match Retriever.similarity_search V collection query 5 with
       | inl e => inl e
       | inr docs =>
           inr (String.concat (String "010" (String "010" ""))
                  (map Retriever.page_content docs))
       end
  /\ forall k,
      retriever_tool V
        (Retriever.QdrantRetrievalService_init url collection (Some k)) query
      = match Retriever.similarity_search V collection query k with
        | inl e => inl e
        | inr docs =>
            inr (String.concat (String "010" (String "010" ""))
                   (map Retriever.page_content docs))
        end.
Proof.
  change (String "010" (String "010" "")) with blank_line.
  assert (H : forall k,
    retriever_tool V (Retriever.QdrantRetrievalService_init url collection k) query
    = match Retriever.similarity_search V collection query
              (match k with Some n => n | None => 5%nat end) with
      | inl e => inl e
      | inr docs =>
          inr (String.concat blank_line (map Retriever.page_content docs))
      end).
  { intros k. unfold retriever_tool, Retriever.query, ebind. cbn.
    destruct (Retriever.similarity_search V collection query _) as [e|docs];
      [reflexivity|].
    rewrite <- (map_map Retriever.page_content JStr). apply join_strings. }
  split; [reflexivity|]. split; [apply (H None) | intros k; apply (H (Some k))].
Qed.

End RetrieverFacts.

Lemma retriever_tool_joins_top_k_witness :
  retriever_tool Sample.store
    (Retriever.get_retriever "http://qdrant:6333" "docs") "capital"
  = inr ("Berlin is the capital of Germany."
         ++ String "010" (String "010" "Paris is in France.")
         ++ String "010" (String "010" "Rome")
         ++ String "010" (String "010" "Oslo")
         ++ String "010" (String "010" "Bern"))%string
  /\ retriever_tool Sample.store
       (Retriever.QdrantRetrievalService_init "http://qdrant:6333" "docs"
          (Some 2%nat)) "capital"
     = inr ("Berlin is the capital of Germany."
            ++ String "010" (String "010" "Paris is in France."))%string
  /\ retriever_tool Sample.store
       (Retriever.QdrantRetrievalService_init "http://qdrant:6333" "docs"
          (Some 1%nat)) "capital"
     = inr "Berlin is the capital of Germany."
  /\ retriever_tool Sample.store
       (Retriever.QdrantRetrievalService_init "http://qdrant:6333" "docs"
          (Some 0%nat)) "capital"
     = inr "".
Proof.
  destruct (retriever_tool_joins_top_k Sample.store
              "http://qdrant:6333" "docs" "capital") as (_ & Hdefault & Hk).
  split; [rewrite Hdefault; reflexivity|].
  split; [rewrite (Hk 2%nat); reflexivity|].
  split; [rewrite (Hk 1%nat); reflexivity|].
  rewrite (Hk 0%nat); reflexivity.
Defined.

(** ** Post-processing of the final answer *)
Section AnswerFacts.
Import Main.

Lemma text_parts_from acc ps :
  fold_left
    (fun text_parts part =>
       if is_text_part part then text_parts ++ [part_text part]
       else text_parts) ps acc
  = acc ++ map part_text (filter is_text_part ps).
Proof.
  revert acc. induction ps as [|p ps IH]; intros acc; cbn [fold_left filter].
  - now rewrite app_nil_r.
  - rewrite IH. destruct (is_text_part p); [|reflexivity].
    cbn [map]. now rewrite <- app_assoc.
Qed.

Lemma text_parts_filter ps :
  text_parts ps = map part_text (filter is_text_part ps).
Proof. apply (text_parts_from [] ps). Qed.


Lemma last_item_app {X} (l : list X) x : last_item (l ++ [x]) = inr x.
Proof.
  induction l as [|y l IH]; [reflexivity|].
  cbn [app last_item]. destruct (l ++ [x]) eqn:E; [|exact IH].
  now destruct l.
Qed.



End AnswerFacts.

(** ** The agent graph *)
Section GraphFacts.
Variable A : Agent.

Lemma check_for_tools_last msgs c calls :
  check_for_tools {| messages := msgs ++ [AIMessage c calls] |}
  = inr (match calls with _ :: _ => "tools" | [] => "end" end).
Proof.
  unfold check_for_tools. cbn [messages]. rewrite last_item_app.
  now destruct calls.
Qed.

(** A superstep of the reasoner, given what the model returns. *)
Lemma superstep_reasoner state c calls :
  llm_with_tools_invoke A (reasoner_input A state) = inr (c, calls) ->
  superstep A reasoner state
  = inr ({| messages := messages state ++ [AIMessage c calls] |},
         match calls with _ :: _ => To tool | [] => END end).
Proof.
  intros Hllm. unfold superstep, run_node, reasoner_node, next_target, ebind.
  rewrite Hllm. cbn [fst snd eret add_messages messages].
  rewrite check_for_tools_last. now destruct calls.
Qed.

Lemma run_tools_return calls :
  tools_always_return A -> exists outs, run_tools A calls = inr outs.
Proof.
  intros Ht. induction calls as [|c calls (outs & IH)].
  - now exists [].
  - destruct (Ht c) as (out & Hout). cbn [run_tools]. unfold ebind.
    rewrite Hout, IH. now eexists.
Qed.

(** A superstep of the tool node after a message with tool calls. *)
Lemma superstep_tool state c calls :
  tools_always_return A ->
  last_item (messages state) = inr (AIMessage c calls) ->
  exists outs,
    superstep A tool state
    = inr ({| messages := messages state ++ outs |}, To reasoner).
Proof.
  intros Ht Hl. destruct (run_tools_return calls Ht) as (outs & Houts).
  exists outs. unfold superstep, run_node, tool_node, next_target, ebind.
  now rewrite Hl, Houts.
Qed.

(** Every superstep only appends to the messages. *)
Lemma superstep_appends n state state' next :
  superstep A n state = inr (state', next) ->
  exists new, messages state' = messages state ++ new.
Proof.
  unfold superstep, ebind, add_messages.
  destruct (run_node A n state) as [e|update]; [discriminate|].
  destruct (next_target n _) as [e|t]; [discriminate|].
  intros [= <- _]. now exists update.
Qed.

Lemma reaches_appends c c' :
  reaches A c c' ->
  exists new, messages (fst c') = messages (fst c) ++ new.
Proof.
  induction 1 as [c | n state state' next c Hstep _ (new & IH)].
  - exists []. now rewrite app_nil_r.
  - destruct (superstep_appends _ _ _ _ Hstep) as (new0 & H0).
    cbn [fst] in *. exists (new0 ++ new). now rewrite IH, H0, app_assoc.
Qed.

(** The loop ends in a configuration it reaches. *)
Lemma pregel_loop_reaches budget next state :
  exists next',
    reaches A (state, next)
      (final_state (pregel_loop A budget next state), next').
Proof.
  revert next state. induction budget as [|b IH]; intros next state.
  - exists next. constructor.
  - cbn [pregel_loop]. destruct next as [n|].
    + destruct (superstep A n state) as [e|[state' next']] eqn:Hs.
      * exists (To n). constructor.
      * destruct (IH next' state') as (t & Hr). exists t. cbn [final_state].
        econstructor; eassumption.
    + exists END. constructor.
Qed.

Lemma pregel_loop_trace_length budget next state :
  (length (trace (pregel_loop A budget next state)) <= budget)%nat.
Proof.
  revert next state. induction budget as [|b IH]; intros next state;
    cbn [pregel_loop]; [cbn; lia|].
  destruct next as [n|]; [|cbn; lia].
  destruct (superstep A n state) as [e|[state' next']]; [cbn; lia|].
  cbn [trace length]. specialize (IH next' state'). lia.
Qed.

(** A failure of the model at the first step is the failure of the run. *)
Lemma invoke_model_failure limit input e :
  (1 <= limit)%nat ->
  llm_with_tools_invoke A (reasoner_input A {| messages := input |}) = inl e ->
  invoke A limit input = inl e.
Proof.
  intros Hl He. destruct limit as [|b]; [lia|].
  unfold invoke, run, entry_point, add_messages.
  cbn [Nat.ltb Nat.leb app pregel_loop].
  unfold superstep, run_node, reasoner_node, ebind. now rewrite He.
Qed.

(** C6: a last message without tool calls routes the reasoner to
    [END], one with tool calls routes it to the tool node; when the
    model answers without tool calls the run is done after the one
    reasoner step, and [answer_query] returns the content of that
    answer, post-processed. *)
Theorem reasoning_ends_or_dispatches :
  (forall msgs c,
      check_for_tools {| messages := msgs ++ [AIMessage c []] |} = inr "end"
      /\ path_map "end" = inr END)
  /\ (forall msgs c call calls,
        check_for_tools {| messages := msgs ++ [AIMessage c (call :: calls)] |}
        = inr "tools"
        /\ path_map "tools" = inr (To tool))
  /\ (forall limit input c,
        (2 <= limit)%nat ->
        llm_with_tools_invoke A (reasoner_input A {| messages := input |})
        = inr (c, []) ->
        run A limit input
        = {| status := done;
             final_state := {| messages := input ++ [AIMessage c []] |};
             trace := [reasoner] |})
  /\ (forall q h c,
        llm_with_tools_invoke A
          (reasoner_input A {| messages := h ++ [HumanMessage (Text q)] |})
        = inr (c, []) ->
        Main.answer_query A q (Some h) = Main.postprocess c
        /\ forall s, c = Text s -> Main.answer_query A q (Some h) = inr s)
  /\ (forall state c call calls,
        llm_with_tools_invoke A (reasoner_input A state)
        = inr (c, call :: calls) ->
        superstep A reasoner state
        = inr ({| messages := messages state ++ [AIMessage c (call :: calls)] |},
               To tool)).
Proof.
  assert (Hrun : forall limit input c,
    (2 <= limit)%nat ->
    llm_with_tools_invoke A (reasoner_input A {| messages := input |})
    = inr (c, []) ->
    run A limit input
    = {| status := done;
         final_state := {| messages := input ++ [AIMessage c []] |};
         trace := [reasoner] |}).
  { intros limit input c Hl Hllm.
    destruct limit as [|[|b]]; try lia.
    unfold run, entry_point, add_messages. cbn [app pregel_loop].
    now rewrite (superstep_reasoner _ _ _ Hllm). }
  split; [|split; [|split; [|split]]].
  - intros msgs c. split; [apply check_for_tools_last | reflexivity].
  - intros msgs c call calls.
    split; [apply check_for_tools_last | reflexivity].
  - exact Hrun.
  - intros q h c Hllm.
    assert (Ha : Main.answer_query A q (Some h) = Main.postprocess c).
    { unfold Main.answer_query, invoke, ebind. cbn [Nat.ltb Nat.leb Main.recursion_limit].
      rewrite (Hrun Main.recursion_limit _ c); [|unfold Main.recursion_limit; lia|exact Hllm].
      cbn [status final_state messages eret]. now rewrite last_item_app. }
    split; [exact Ha|]. intros s ->. exact Ha.
  - intros state c call calls Hllm. apply (superstep_reasoner _ _ _ Hllm).
Qed.

(** C8: the model is first invoked on the system prompt, then the
    history, then the new user message; every superstep appends to
    the messages, so every configuration a run reaches, and the
    state it ends in, extend that conversation. *)
Theorem conversation_grows_from_prefix q h :
  let input := h ++ [HumanMessage (Text q)] in
  let start := {| messages := add_messages [] input |} in
  reasoner_input A start
  = [SystemMessage (Text (SYSTEM_PROMPT A))] ++ h ++ [HumanMessage (Text q)]
  /\ (forall n state state' next,
        superstep A n state = inr (state', next) ->
        exists new,
          messages state' = messages state ++ new
          /\ reasoner_input A state' = reasoner_input A state ++ new)
  /\ (forall state next,
        reaches A (start, entry_point) (state, next) ->
        exists new,
          reasoner_input A state
          = [SystemMessage (Text (SYSTEM_PROMPT A))] ++ h
            ++ [HumanMessage (Text q)] ++ new)
  /\ (forall limit,
        exists new,
          messages (final_state (run A limit input)) = input ++ new).
Proof.
  intros input start. split; [reflexivity|]. split; [|split].
  - intros n state state' next Hs.
    destruct (superstep_appends _ _ _ _ Hs) as (new & Hn).
    exists new. split; [exact Hn|]. unfold reasoner_input.
    now rewrite Hn, app_assoc.
  - intros state next Hr. destruct (reaches_appends _ _ Hr) as (new & Hn).
    cbn [fst] in Hn. exists new. unfold reasoner_input. rewrite Hn.
    unfold start, add_messages, input. cbn [messages app].
    now rewrite <- app_assoc.
  - intros limit. unfold run.
    destruct (pregel_loop_reaches limit entry_point start) as (t & Hr).
    destruct (reaches_appends _ _ Hr) as (new & Hn).
    exists new. exact Hn.
Qed.

End GraphFacts.

Section GraphWitnesses.

Local Abbreviation hello := (Sample.direct_agent (Text "Hello")).
Local Abbreviation hi := (HumanMessage (Text "hi")).

Lemma reasoning_ends_or_dispatches_witness :
  run hello 50 [hi]
  = {| status := done;
       final_state := {| messages := [hi; AIMessage (Text "Hello") []] |};
       trace := [reasoner] |}
  /\ Main.answer_query hello "hi" (Some []) = inr "Hello"
  /\ superstep Sample.looping_agent reasoner {| messages := [hi] |}
     = inr ({| messages := [hi; AIMessage (Text "") [Sample.weather_call]] |},
            To tool).
Proof.
  destruct (reasoning_ends_or_dispatches hello) as (_ & _ & Hrun & Hanswer & _).
  destruct (reasoning_ends_or_dispatches Sample.looping_agent)
    as (_ & _ & _ & _ & Hcalls).
  split; [|split].
  - apply (Hrun 50%nat [hi] (Text "Hello")); [lia | reflexivity].
  - apply (proj2 (Hanswer "hi" [] (Text "Hello") eq_refl) "Hello" eq_refl).
  - apply (Hcalls {| messages := [hi] |} (Text "") Sample.weather_call []).
    reflexivity.
Defined.

Lemma conversation_grows_from_prefix_witness :
  let sys := SystemMessage (Text (SYSTEM_PROMPT Sample.looping_agent)) in
  let ask := AIMessage (Text "") [Sample.weather_call] in
  (exists new,
      reasoner_input Sample.looping_agent
        {| messages := [hi; ask; ToolMessage (Text "sunny") "call_1"] |}
      = [sys] ++ [] ++ [hi] ++ new)
  /\ (exists new,
        [hi; ask] = [hi] ++ new
        /\ reasoner_input Sample.looping_agent {| messages := [hi; ask] |}
           = reasoner_input Sample.looping_agent {| messages := [hi] |} ++ new).
Proof.
  intros sys ask.
  destruct (conversation_grows_from_prefix Sample.looping_agent "hi" [])
    as (_ & Hstep & Hreach & _).
  split.
  - apply (Hreach {| messages := [hi; ask; ToolMessage (Text "sunny") "call_1"] |}
             (To reasoner)).
    apply (reaches_step _ reasoner _ {| messages := [hi; ask] |} (To tool));
      [reflexivity|].
    apply (reaches_step _ tool _
             {| messages := [hi; ask; ToolMessage (Text "sunny") "call_1"] |}
             (To reasoner)); [reflexivity|].
    apply reaches_here.
  - apply (Hstep reasoner {| messages := [hi] |} {| messages := [hi; ask] |}
             (To tool)).
    reflexivity.
Defined.

End GraphWitnesses.

(** ** The step budget *)
Section BudgetFacts.
Variable A : Agent.
Hypothesis Hllm : always_requests_tool A.

Lemma half_succ b : (S b / 2 = b - b / 2)%nat.
Proof.
  pose proof (Nat.div_mod_eq b 2). pose proof (Nat.div_mod_eq (S b) 2).
  pose proof (Nat.mod_upper_bound b 2). pose proof (Nat.mod_upper_bound (S b) 2).
  lia.
Qed.

Lemma half_le b : (b / 2 <= b)%nat.
Proof. apply Nat.Div0.div_le_upper_bound. lia. Qed.

(** With a model that always asks for tools the loop never reaches
    [END], and dispatches at most every second superstep. *)
Lemma loop_never_done budget :
  (forall state,
      let r := pregel_loop A budget (To reasoner) state in
      status r <> done /\ (count_node tool (trace r) <= budget / 2)%nat)
  /\ (forall state c call calls,
        last_item (messages state) = inr (AIMessage c (call :: calls)) ->
        let r := pregel_loop A budget (To tool) state in
        status r <> done
        /\ (count_node tool (trace r) <= budget - budget / 2)%nat).
Proof.
  induction budget as [|b [IHr IHt]].
  - split; intros; cbn; split; (discriminate || lia).
  - split.
    + intros state.
      destruct (Hllm (reasoner_input A state)) as (c & call & calls & H).
      cbn [pregel_loop]. rewrite (superstep_reasoner A _ _ _ H).
      cbn [status trace]. rewrite half_succ.
      apply (IHt _ c call calls). cbn [messages]. apply last_item_app.
    + intros state c call calls Hl. cbn [pregel_loop].
      destruct (superstep A tool state) as [e|[state' next]] eqn:Hs.
      * cbn. split; [discriminate | lia].
      * assert (next = To reasoner) as ->.
        { unfold superstep, ebind in Hs.
          destruct (run_node A tool state); [discriminate|].
          cbn in Hs. now injection Hs as _ <-. }
        cbn [status trace]. destruct (IHr state') as [Hd Hc].
        split; [exact Hd|]. unfold count_node in *. cbn [filter length].
        rewrite half_succ. pose proof (half_le b). lia.
Qed.

Hypothesis Htools : tools_always_return A.

(** When, besides, every tool call yields a message, the loop runs
    out of steps after exactly [budget] supersteps, which alternate
    between the two nodes. *)
Lemma loop_alternates budget :
  (forall state,
      let r := pregel_loop A budget (To reasoner) state in
      status r = out_of_steps
      /\ length (trace r) = budget
      /\ count_node tool (trace r) = (budget / 2)%nat
      /\ count_node reasoner (trace r) = (budget - budget / 2)%nat)
  /\ (forall state c call calls,
        last_item (messages state) = inr (AIMessage c (call :: calls)) ->
        let r := pregel_loop A budget (To tool) state in
        status r = out_of_steps
        /\ length (trace r) = budget
        /\ count_node tool (trace r) = (budget - budget / 2)%nat
        /\ count_node reasoner (trace r) = (budget / 2)%nat).
Proof.
  induction budget as [|b [IHr IHt]].
  - split; intros; cbn; repeat split; reflexivity.
  - split.
    + intros state.
      destruct (Hllm (reasoner_input A state)) as (c & call & calls & H).
      cbn [pregel_loop]. rewrite (superstep_reasoner A _ _ _ H).
      cbn [status trace].
      destruct (IHt {| messages := messages state ++ [AIMessage c (call :: calls)] |}
                  c call calls (last_item_app _ _)) as (Hs & Hn & Ht & Hr).
      unfold count_node in *. cbn [filter length].
      rewrite half_succ, Hn, Ht, Hr. pose proof (half_le b).
      repeat split; try assumption; lia.
    + intros state c call calls Hl. cbn [pregel_loop].
      destruct (superstep_tool A state c _ Htools Hl) as (outs & Hs).
      rewrite Hs. cbn [status trace].
      destruct (IHr {| messages := messages state ++ outs |})
        as (Hst & Hn & Ht & Hr).
      unfold count_node in *. cbn [filter length].
      rewrite half_succ, Hn, Ht, Hr. pose proof (half_le b).
      repeat split; try assumption; lia.
Qed.

End BudgetFacts.

(** C1 (as the code has it): the budget of the loop is the recursion
    limit, which counts supersteps, and each run of the reasoner and
    each run of the tool node is one superstep.  With a model that
    always asks for a tool, a run under a limit [N >= 1] never ends in
    [done] and dispatches at most [N / 2] times; when the tool node
    does not raise, the run is out of steps after exactly [N]
    supersteps, [N - N / 2] of the reasoner and [N / 2] of the tool
    node, and [invoke] raises [GraphRecursionError].  The limit
    [answer_query] configures is 50. *)
Theorem tool_loop_exhausts_budget A N input :
  (1 <= N)%nat ->
  always_requests_tool A ->
  let r := run A N input in
  (status r <> done
   /\ (length (trace r) <= N)%nat
   /\ (count_node tool (trace r) <= N / 2)%nat
   /\ (exists e, invoke A N input = inl e))
  /\ (tools_always_return A ->
      status r = out_of_steps
      /\ length (trace r) = N
      /\ count_node tool (trace r) = (N / 2)%nat
      /\ count_node reasoner (trace r) = (N - N / 2)%nat
      /\ exists msg, invoke A N input = inl (Exn GraphRecursionError msg))
  /\ Main.recursion_limit = 50%nat.
Proof.
  intros HN Hllm r.
  assert (Hinvoke : invoke A N input
                    = match status r with
                      | done => inr (final_state r)
                      | out_of_steps =>
                          inl (Exn GraphRecursionError
                                 "Recursion limit reached without hitting a stop condition.")
                      | failed e => inl e
                      end).
  { unfold invoke. destruct N as [|n]; [lia | reflexivity]. }
  split; [|split; [|reflexivity]].
  - destruct (proj1 (loop_never_done A Hllm N) {| messages := add_messages [] input |})
      as [Hd Hc].
    change (status r <> done) in Hd.
    change (count_node tool (trace r) <= N / 2)%nat in Hc.
    split; [exact Hd|]. split; [apply pregel_loop_trace_length|].
    split; [exact Hc|].
    rewrite Hinvoke. destruct (status r) as [| |e]; [contradiction| |];
      eexists; reflexivity.
  - intros Htools.
    destruct (proj1 (loop_alternates A Hllm Htools N)
                {| messages := add_messages [] input |}) as (Hs & Hn & Ht & Hr).
    change (status r = out_of_steps) in Hs.
    change (length (trace r) = N) in Hn.
    change (count_node tool (trace r) = (N / 2)%nat) in Ht.
    change (count_node reasoner (trace r) = (N - N / 2)%nat) in Hr.
    repeat (split; [assumption|]).
    rewrite Hinvoke, Hs. eexists. reflexivity.
Qed.

Lemma looping_agent_always_requests_tool :
  always_requests_tool Sample.looping_agent.
Proof. intros msgs. now exists (Text ""), Sample.weather_call, []. Qed.

Lemma looping_agent_tools_return : tools_always_return Sample.looping_agent.
Proof. intros call. now exists (Text "sunny"). Qed.

Lemma tool_loop_exhausts_budget_witness :
  let r := run Sample.looping_agent 50 [HumanMessage (Text "hi")] in
  status r = out_of_steps
  /\ count_node tool (trace r) = 25%nat
  /\ count_node reasoner (trace r) = 25%nat.
Proof.
  intros r.
  destruct (tool_loop_exhausts_budget Sample.looping_agent 50
              [HumanMessage (Text "hi")] ltac:(lia)
              looping_agent_always_requests_tool)
    as (_ & Hexact & _).
  destruct (Hexact looping_agent_tools_return) as (Hs & _ & Ht & Hr & _).
  split; [exact Hs|]. split; [exact Ht | exact Hr].
Defined.

(** With the configured budget of 50 the always-asking model is
    stopped after 25 dispatch cycles, not 50: a budget of [N] does not
    buy [N] dispatch cycles. *)
Lemma budget_is_not_dispatch_cycles :
  count_node tool
    (trace (run Sample.looping_agent Main.recursion_limit
              [HumanMessage (Text "hi")])) = 25%nat
  /\ ~ (forall A N input,
          (1 <= N)%nat -> always_requests_tool A ->
          status (run A N input) <> done
          /\ count_node tool (trace (run A N input)) = N).
Proof.
  split; [reflexivity|]. intros H.
  destruct (H Sample.looping_agent 50%nat [HumanMessage (Text "hi")]
              ltac:(lia) looping_agent_always_requests_tool) as [_ Hc].
  vm_compute in Hc. discriminate.
Qed.

(** ** Runs in which the model answers at once *)
Lemma run_without_tool_calls A limit input c :
  (2 <= limit)%nat ->
  llm_with_tools_invoke A (reasoner_input A {| messages := input |}) = inr (c, []) ->
  run A limit input
  = {| status := done;
       final_state := {| messages := input ++ [AIMessage c []] |};
       trace := [reasoner] |}.
Proof.
  intros Hl Hllm. destruct limit as [|[|b]]; try lia.
  unfold run, entry_point, add_messages. cbn [app pregel_loop].
  now rewrite (superstep_reasoner A _ _ _ Hllm).
Qed.

Lemma answer_query_direct A q h c :
  llm_with_tools_invoke A
    (reasoner_input A {| messages := h ++ [HumanMessage (Text q)] |})
  = inr (c, []) ->
  Main.answer_query A q (Some h) = Main.postprocess c.
Proof.
  intros Hllm. unfold Main.answer_query, invoke, ebind.
  cbn [Nat.ltb Nat.leb Main.recursion_limit].
  rewrite (run_without_tool_calls A Main.recursion_limit _ c);
    [|unfold Main.recursion_limit; lia|exact Hllm].
  cbn [status final_state messages eret]. now rewrite last_item_app.
Qed.

(** ** The chat endpoint *)
Section ApiFacts.
Variable A : Agent.

(** C7: [chat] returns a body [{response: s}] for every request and
    raises nothing: [s] is the answer, the fixed sentence
    "Sorry, I was not able to generate an answer." when the answer is
    empty, and "A error occurred: " followed by the description of the
    exception when [answer_query] raised; in particular a failure of
    the model is reported in the response, and a model that answers
    with the empty text at once gets the fixed sentence. *)
Theorem chat_always_responds request :
  let history := Api.convert_history (Api.chat_history request) in
  Api.chat A request
  = inr {| Api.response :=
             match Main.answer_query A (Api.message request) (Some history) with
             | inl e => ("A error occurred: " ++ exn_str e)%string
             | inr answer =>
                 if String.eqb answer ""
                 then "Sorry, I was not able to generate an answer."
                 else answer
             end |}
  /\ (forall e,
        llm_with_tools_invoke A
          (reasoner_input A
             {| messages := history ++ [HumanMessage (Text (Api.message request))] |})
        = inl e ->
        Api.chat A request
        = inr {| Api.response := ("A error occurred: " ++ exn_str e)%string |})
  /\ (llm_with_tools_invoke A
        (reasoner_input A
           {| messages := history ++ [HumanMessage (Text (Api.message request))] |})
      = inr (Text "", []) ->
      Api.chat A request
      = inr {| Api.response := "Sorry, I was not able to generate an answer." |})
  /\ (forall answer,
        answer <> "" ->
        llm_with_tools_invoke A
          (reasoner_input A
             {| messages := history ++ [HumanMessage (Text (Api.message request))] |})
        = inr (Text answer, []) ->
        Api.chat A request = inr {| Api.response := answer |}).
Proof.
  intros history.
  change "Sorry, I was not able to generate an answer." with Api.apology.
  assert (Hchat : Api.chat A request
    = inr {| Api.response :=
               match Main.answer_query A (Api.message request) (Some history) with
               | inl e => ("A error occurred: " ++ exn_str e)%string
               | inr answer =>
                   if String.eqb answer "" then Api.apology else answer
               end |}).
  { unfold Api.chat, ebind. fold history.
    destruct (Main.answer_query A (Api.message request) (Some history))
      as [e|answer]; [reflexivity|].
    now destruct (String.eqb answer ""). }
  split; [exact Hchat|]. split; [|split].
  - intros e He. rewrite Hchat.
    replace (Main.answer_query A (Api.message request) (Some history))
      with (@inl exn string e); [reflexivity|].
    symmetry. unfold Main.answer_query.
    rewrite (invoke_model_failure A Main.recursion_limit _ e);
      [reflexivity| |exact He].
    unfold Main.recursion_limit. lia.
  - intros Hllm. rewrite Hchat.
    now rewrite (answer_query_direct A _ _ _ Hllm).
  - intros answer Hne Hllm. rewrite Hchat.
    rewrite (answer_query_direct A _ _ _ Hllm). cbn [Main.postprocess eret].
    apply String.eqb_neq in Hne. now rewrite Hne.
Qed.

End ApiFacts.

Lemma chat_always_responds_witness :
  Api.chat Sample.broken_agent
    {| Api.message := "hi";
       Api.chat_history := [{| Api.role := "user"; Api.content := "hello" |}] |}
  = inr {| Api.response := "A error occurred: 503 Service Unavailable" |}
  /\ Api.chat (Sample.direct_agent (Text ""))
       {| Api.message := "hi";
          Api.chat_history := [{| Api.role := "user"; Api.content := "hello" |}] |}
     = inr {| Api.response := "Sorry, I was not able to generate an answer." |}
  /\ Api.chat (Sample.direct_agent (Text "Sunny."))
       {| Api.message := "hi";
          Api.chat_history := [{| Api.role := "user"; Api.content := "hello" |}] |}
     = inr {| Api.response := "Sunny." |}.
Proof.
  split; [|split].
  - apply (proj1 (proj2 (chat_always_responds Sample.broken_agent
                    {| Api.message := "hi";
                       Api.chat_history :=
                         [{| Api.role := "user"; Api.content := "hello" |}] |}))
             (Exn OtherError "503 Service Unavailable")).
    reflexivity.
  - apply (proj1 (proj2 (proj2 (chat_always_responds
                    (Sample.direct_agent (Text ""))
                    {| Api.message := "hi";
                       Api.chat_history :=
                         [{| Api.role := "user"; Api.content := "hello" |}] |})))).
    reflexivity.
  - apply (proj2 (proj2 (proj2 (chat_always_responds
                    (Sample.direct_agent (Text "Sunny."))
                    {| Api.message := "hi";
                       Api.chat_history :=
                         [{| Api.role := "user"; Api.content := "hello" |}] |})))
             "Sunny.").
    + discriminate.
    + reflexivity.
Defined.

(** ** Error and edge behaviour of the weather tools *)
Section ToolEdgeFacts.
Variable W : World.

Local Abbreviation geo city country :=
  (request geocode_url (geocode_params city country) user_agent).
Local Abbreviation geo_handled :=
  [URLError; HTTPError; KeyError; IndexError; ValueError].

Lemma get_latitude_longitude_error city country log e :
  http W (geo city country) = inl e ->
  get_latitude_longitude W city country log
  = (if caught_by geo_handled e then inr None else inl e,
     log ++ [geo city country]).
Proof.
  intros Hh. unfold get_latitude_longitude, try_except, bind, _http_get, lift.
  rewrite Hh. unfold ret. now destruct (caught_by _ e).
Qed.

Lemma get_latitude_longitude_log city country log :
  snd (get_latitude_longitude W city country log) = log ++ [geo city country].
Proof.
  destruct (http W (geo city country)) as [e|data] eqn:Hh.
  - now rewrite (get_latitude_longitude_error _ _ _ _ Hh).
  - now rewrite (get_latitude_longitude_body W _ _ _ _ Hh).
Qed.




(** X1: When the geocoding request fails with an exception the handler
    names, both city tools return null after that single request. *)
Theorem geocoding_failure_gives_null city country fd log e :
  http W (geo city country) = inl e ->
  In (exn_class e) geo_handled ->
  get_weather_from_city_name W city country log
  = (inr None, log ++ [geo city country])
  /\ get_weather_forecast_from_city_name W city country fd log
     = (inr None, log ++ [geo city country]).
Proof.
  intros Hh Hc. apply caught_by_spec in Hc.
  unfold get_weather_from_city_name, get_weather_forecast_from_city_name, bind.
  rewrite (get_latitude_longitude_error _ _ _ _ Hh), Hc. now split.
Qed.

(** X2: An exception of any other class escapes both city tools; the
    phrase tool alone turns it into null. *)
Theorem geocoding_exception_escapes city country fd phrase log e :
  http W (geo city country) = inl e ->
  ~ In (exn_class e) geo_handled ->
  get_weather_from_city_name W city country log
  = (inl e, log ++ [geo city country])
  /\ get_weather_forecast_from_city_name W city country fd log
     = (inl e, log ++ [geo city country])
  /\ (forall dt, dateparser_parse W phrase (now_berlin W) = inr dt ->
      get_weather_forecast_from_city_name_date_phrase W city country phrase log
      = (inr None, log ++ [geo city country])).
Proof.
  intros Hh Hc.
  assert (Hn : caught_by geo_handled e = false).
  { destruct (caught_by geo_handled e) eqn:E; [|reflexivity].
    now apply caught_by_spec in E. }
  unfold get_weather_forecast_from_city_name_date_phrase, try_except_Exception,
    get_weather_from_city_name, get_weather_forecast_from_city_name, bind, lift.
  rewrite !(get_latitude_longitude_error _ _ _ _ Hh), Hn.
  split; [reflexivity|]. split; [reflexivity|].
  intros dt Hp. now rewrite Hp.
Qed.

(** X3: A first geocoding hit without usable coordinates: a missing
    ["lat"] key or an unparsable number gives null, a JSON null
    raises [TypeError], which the handler does not name. *)
Theorem geocoding_hit_without_coordinates city country log d rest :
  http W (geo city country) = inr (JList (JDict d :: rest)) ->
  (lookup "lat" d = None ->
   get_latitude_longitude W city country log
   = (inr None, log ++ [geo city country]))
  /\ (forall s, lookup "lat" d = Some (JStr s) -> float_of_str W s = None ->
      get_latitude_longitude W city country log
      = (inr None, log ++ [geo city country]))
  /\ (lookup "lat" d = Some JNull ->
      exists msg,
        get_latitude_longitude W city country log
        = (inl (Exn TypeError msg), log ++ [geo city country])).
Proof.
  intros Hh. rewrite (get_latitude_longitude_body W _ _ _ _ Hh).
  unfold first_coordinates.
  cbn [truthy getitem_int nth_error eret ebind getitem_str].
  split; [|split].
  - intros ->. reflexivity.
  - intros s -> Hs. cbn [ebind eret float]. now rewrite Hs.
  - intros ->. cbn. eexists. reflexivity.
Qed.


(** X5: When the current-weather tool returns a dict, it has the seven
    keys in their fixed order, each holding the reading of the body's
    ["current_weather"] object, or null when the reading is missing
    (as ["precipitation"] and ["cloudcover"] may be). *)
Theorem current_weather_entry_shape lat lon log r log' :
  get_weather W lat lon log = (inr (Some r), log') ->
  exists data current,
    http W (request weather_url (weather_params lat lon) user_agent) = inr data
    /\ getitem_str data "current_weather" = inr (JDict current)
    /\ let reading key :=
         match lookup key current with Some v => v | None => JNull end in
       r = [("temperature", reading "temperature");
            ("windspeed", reading "windspeed");
            ("winddirection", reading "winddirection");
            ("weathercode", reading "weathercode");
            ("time", reading "time");
            ("rain", reading "precipitation");
            ("cloudcover", reading "cloudcover")].
Proof.
  unfold get_weather, try_except, bind, _http_get, lift.
  destruct (http W _) as [e|data] eqn:Hh.
  { unfold ret. destruct (caught_by _ e); discriminate. }
  destruct (current_entry data) as [e|o] eqn:He.
  { unfold ret. destruct (caught_by _ e); discriminate. }
  intros [= -> _]. exists data.
  unfold current_entry, ebind in He.
  destruct (contains_str "current_weather" data) as [e|[|]]; try discriminate.
  destruct (getitem_str data "current_weather") as [e|current]; try discriminate.
  destruct current; try discriminate. exists d.
  split; [reflexivity|]. split; [reflexivity|].
  cbn in He. now injection He as <-.
Qed.

(** X6: A date string that [strptime] rejects is noticed only after the
    city has been geocoded: the forecast-by-city tool issues that one
    request and returns no forecast. *)
Theorem bad_date_is_checked_after_geocoding city country fd log :
  strptime_ymd W fd = None ->
  snd (get_weather_forecast_from_city_name W city country fd log)
  = log ++ [geo city country]
  /\ forall r,
      fst (get_weather_forecast_from_city_name W city country fd log)
      <> inr (Some r).
Proof.
  intros Hp. pose proof (get_latitude_longitude_log city country log) as Hlog.
  unfold get_weather_forecast_from_city_name, bind.
  destruct (get_latitude_longitude W city country log) as [[e|[[lat lon]|]] log1];
    cbn [snd] in Hlog; subst log1; cbn [snd fst ret];
    try (split; [reflexivity | discriminate]).
  unfold get_weather_forecast. rewrite Hp. cbn [ret fst snd].
  split; [reflexivity | discriminate].
Qed.

(** X7: The phrase tool never raises: a failure of the date parser gives
    null with no request at all, and whatever the by-date tool
    raises is turned into null. *)
Theorem forecast_by_phrase_never_raises city country phrase log :
  (exists r log',
      get_weather_forecast_from_city_name_date_phrase W city country phrase log
      = (inr r, log'))
  /\ (forall e, dateparser_parse W phrase (now_berlin W) = inl e ->
      get_weather_forecast_from_city_name_date_phrase W city country phrase log
      = (inr None, log)).
Proof.
  unfold get_weather_forecast_from_city_name_date_phrase, try_except_Exception,
    bind, lift, ret.
  destruct (dateparser_parse W phrase (now_berlin W)) as [e|dt].
  - split; [now exists None, log|]. now intros e' [= <-].
  - split; [|discriminate].
    destruct (get_weather_forecast_from_city_name W city country _ log)
      as [[e|r] log']; eexists; eexists; reflexivity.
Qed.

Lemma list_index_first s l i :
  list_index s l = Some i ->
  forall j, (j < i)%nat -> nth_error l j <> Some (JStr s).
Proof.
  revert i. induction l as [|x l IH]; cbn [list_index]; [discriminate|].
  intros i. destruct (is_str s x) eqn:Hx.
  - intros [= <-] j Hj. lia.
  - destruct (list_index s l) as [k|]; cbn [option_map]; [|discriminate].
    intros [= <-] [|j] Hj; cbn [nth_error].
    + intros [= ->]. rewrite (proj2 (is_str_true s (JStr s)) eq_refl) in Hx.
      discriminate.
    + apply (IH k eq_refl). lia.
Qed.

Lemma get_weather_forecast_Some lat lon fd log r log' :
  get_weather_forecast W lat lon fd log = (inr (Some r), log') ->
  fetch_forecast W lat lon fd log = (inr (Some r), log').
Proof.
  unfold get_weather_forecast.
  destruct (strptime_ymd W fd); [|discriminate].
  destruct (_ || _); [discriminate | trivial].
Qed.

(** X8: A forecast that is returned is read at the position of the first
    entry of the series equal to the requested date string: the three
    temperature and precipitation values are the entries of their
    columns at that position. *)
Theorem forecast_entry_is_first_match lat lon fd log r log' data l :
  get_weather_forecast W lat lon fd log = (inr (Some r), log') ->
  http W (request forecast_url (forecast_params lat lon) user_agent) = inr data ->
  daily_times data = inr (JList l) ->
  exists idx daily tmax tmin prec cloud,
    nth_error l idx = Some (JStr fd)
    /\ (forall j, (j < idx)%nat -> nth_error l j <> Some (JStr fd))
    /\ getitem_str data "daily" = inr daily
    /\ column_at daily "temperature_2m_max" idx = inr tmax
    /\ column_at daily "temperature_2m_min" idx = inr tmin
    /\ column_at daily "precipitation_sum" idx = inr prec
    /\ r = [("date", JStr fd); ("temperature_max", tmax);
            ("temperature_min", tmin); ("precipitation_sum", prec);
            ("cloudcover_mean", cloud)].
Proof.
  intros H Hh Ht. apply get_weather_forecast_Some in H.
  destruct (fetch_forecast_Some W _ _ _ _ _ _ H) as (data' & Hh' & He).
  rewrite Hh in Hh'. injection Hh' as <-.
  unfold daily_entry, daily_times, ebind in He, Ht.
  destruct (contains_str "daily" data) as [e|[|]]; try discriminate.
  destruct (getitem_str data "daily") as [e|daily] eqn:Hd; try discriminate.
  rewrite Ht in He.
  destruct (contains_str fd (JList l)) as [e|[|]]; try discriminate.
  cbn [index_str] in He.
  destruct (list_index fd l) as [idx|] eqn:Hidx; try discriminate.
  cbn [eret] in He.
  destruct (column_at daily "temperature_2m_max" idx) as [e|tmax] eqn:H1;
    try discriminate.
  destruct (column_at daily "temperature_2m_min" idx) as [e|tmin] eqn:H2;
    try discriminate.
  destruct (column_at daily "precipitation_sum" idx) as [e|prec] eqn:H3;
    try discriminate.
  destruct (get daily "cloudcover_mean" (JList [JNull])) as [e|col];
    try discriminate.
  destruct (getitem_int col idx) as [e|cloud]; try discriminate.
  injection He as <-.
  exists idx, daily, tmax, tmin, prec, cloud.
  split; [now apply list_index_nth|].
  split; [now apply list_index_first|].
  repeat (split; [reflexivity || assumption|]). reflexivity.
Qed.

(** X9: When the body has no ["cloudcover_mean"] column, the default
    [[None]] stands in for it: a forecast is returned for the first
    date of the series only, with a null cloud cover, and null for
    every later date. *)
Theorem forecast_without_cloudcover_column lat lon fd log d daily l idx :
  strptime_ymd W fd = Some d ->
  (utcnow_date W <= d <= utcnow_date W + 10)%Z ->
  http W (request forecast_url (forecast_params lat lon) user_agent)
  = inr (JDict [("daily", JDict daily)]) ->
  lookup "time" daily = Some (JList l) ->
  lookup "cloudcover_mean" daily = None ->
  list_index fd l = Some idx ->
  (forall key,
      In key ["temperature_2m_max"; "temperature_2m_min"; "precipitation_sum"] ->
      exists col, lookup key daily = Some (JList col) /\ (idx < length col)%nat) ->
  (idx = 0%nat ->
   exists r,
     get_weather_forecast W lat lon fd log
     = (inr (Some r),
        log ++ [request forecast_url (forecast_params lat lon) user_agent])
     /\ lookup "cloudcover_mean" r = Some JNull)
  /\ ((0 < idx)%nat ->
      get_weather_forecast W lat lon fd log
      = (inr None,
         log ++ [request forecast_url (forecast_params lat lon) user_agent])).
Proof.
  intros Hp Hd Hh Ht Hc Hidx Hcols.
  rewrite (forecast_in_window W _ _ _ _ _ Hp Hd).
  rewrite (fetch_forecast_body W _ _ _ _ _ Hh).
  assert (Hcol : forall key,
    In key ["temperature_2m_max"; "temperature_2m_min"; "precipitation_sum"] ->
    exists v, column_at (JDict daily) key idx = inr v).
  { intros key Hk. destruct (Hcols key Hk) as (col & Hl & Hlt).
    unfold column_at, ebind. cbn [getitem_str]. rewrite Hl. cbn [eret getitem_int].
    destruct (nth_error col idx) as [v|] eqn:Hv; [now exists v|].
    apply nth_error_None in Hv. lia. }
  destruct (Hcol "temperature_2m_max") as (v1 & H1); [simpl; tauto|].
  destruct (Hcol "temperature_2m_min") as (v2 & H2); [simpl; tauto|].
  destruct (Hcol "precipitation_sum") as (v3 & H3); [simpl; tauto|].
  assert (Hin : existsb (is_str fd) l = true).
  { apply existsb_exists. exists (JStr fd).
    split; [|now apply is_str_true].
    apply (nth_error_In l idx). exact (list_index_nth _ _ _ Hidx). }
  unfold daily_entry.
  cbn [contains_str lookup String.eqb Ascii.eqb Bool.eqb ebind eret getitem_str get].
  rewrite Ht. cbn [ebind contains_str eret]. rewrite Hin.
  cbn [index_str]. rewrite Hidx. cbn [ebind eret].
  rewrite H1, H2, H3. cbn [ebind]. rewrite Hc. cbn [getitem_int].
  split.
  - intros ->. cbn. eexists. split; reflexivity.
  - intros Hpos. destruct idx as [|k]; [lia|].
    cbn [nth_error]. now destruct k.
Qed.

End ToolEdgeFacts.

Section ToolEdgeWitnesses.

Local Abbreviation geo_berlin :=
  (request geocode_url (geocode_params "Berlin" "Germany") user_agent).
Local Abbreviation forecast_berlin :=
  (request forecast_url
     (forecast_params Sample.lat_berlin Sample.lon_berlin) user_agent).

Lemma geocoding_failure_gives_null_witness :
  get_weather_from_city_name Scenario.unreachable "Berlin" "Germany" []
  = (inr None, [geo_berlin])
  /\ get_weather_forecast_from_city_name Scenario.unreachable
       "Berlin" "Germany" "2025-01-02" []
     = (inr None, [geo_berlin]).
Proof.
  apply (geocoding_failure_gives_null Scenario.unreachable "Berlin" "Germany"
           "2025-01-02" []
           (Exn URLError "<urlopen error [Errno 111] Connection refused>")).
  - reflexivity.
  - simpl. tauto.
Defined.

Lemma geocoding_exception_escapes_witness :
  let e := Exn OtherError "The read operation timed out" in
  get_weather_from_city_name Scenario.timing_out "Berlin" "Germany" []
  = (inl e, [geo_berlin])
  /\ get_weather_forecast_from_city_name_date_phrase Scenario.timing_out
       "Berlin" "Germany" "today" []
     = (inr None, [geo_berlin]).
Proof.
  intros e.
  destruct (geocoding_exception_escapes Scenario.timing_out "Berlin" "Germany"
              "2025-01-02" "today" [] e eq_refl) as (Hw & _ & Hp).
  - simpl. intuition discriminate.
  - split; [exact Hw|]. apply (Hp (Some (2025, 1, 1)%Z)). reflexivity.
Defined.

Lemma geocoding_hit_without_coordinates_witness :
  get_latitude_longitude
    (Scenario.geocoder_returning [("display_name", JStr "Berlin")])
    "Berlin" "Germany" []
  = (inr None, [geo_berlin])
  /\ get_latitude_longitude
       (Scenario.geocoder_returning [("lat", JStr "north"); ("lon", JStr "13.4")])
       "Berlin" "Germany" []
     = (inr None, [geo_berlin])
  /\ exists msg,
      get_latitude_longitude
        (Scenario.geocoder_returning [("lat", JNull); ("lon", JNull)])
        "Berlin" "Germany" []
      = (inl (Exn TypeError msg), [geo_berlin]).
Proof.
  split; [|split].
  - apply (proj1 (geocoding_hit_without_coordinates
                    (Scenario.geocoder_returning [("display_name", JStr "Berlin")])
                    "Berlin" "Germany" [] _ [] eq_refl)).
    reflexivity.
  - apply (proj1 (proj2 (geocoding_hit_without_coordinates
                    (Scenario.geocoder_returning
                       [("lat", JStr "north"); ("lon", JStr "13.4")])
                    "Berlin" "Germany" [] _ [] eq_refl)) "north");
      reflexivity.
  - apply (proj2 (proj2 (geocoding_hit_without_coordinates
                    (Scenario.geocoder_returning [("lat", JNull); ("lon", JNull)])
                    "Berlin" "Germany" [] _ [] eq_refl))).
    reflexivity.
Defined.

Lemma current_weather_entry_shape_witness :
  exists r log',
    get_weather Sample.world Sample.lat_berlin Sample.lon_berlin [] = (inr (Some r), log')
    /\ map fst r = ["temperature"; "windspeed"; "winddirection"; "weathercode";
                    "time"; "rain"; "cloudcover"]
    /\ lookup "rain" r = Some JNull.
Proof.
  destruct (get_weather Sample.world Sample.lat_berlin Sample.lon_berlin [])
    as [[e|[r|]] log'] eqn:Hw; try (vm_compute in Hw; discriminate).
  exists r, log'. split; [reflexivity|].
  destruct (current_weather_entry_shape Sample.world _ _ _ _ _ Hw)
    as (data & current & Hh & Hc & Hr).
  vm_compute in Hh. injection Hh as <-.
  vm_compute in Hc. injection Hc as <-.
  rewrite Hr. split; reflexivity.
Defined.

Lemma bad_date_is_checked_after_geocoding_witness :
  snd (get_weather_forecast_from_city_name Sample.world "Berlin" "Germany"
         "tomorrow" [])
  = [geo_berlin].
Proof.
  apply (proj1 (bad_date_is_checked_after_geocoding Sample.world
                  "Berlin" "Germany" "tomorrow" [] eq_refl)).
Defined.

Lemma forecast_by_phrase_never_raises_witness :
  get_weather_forecast_from_city_name_date_phrase Scenario.with_failing_parser
    "Berlin" "Germany" "next Friday" []
  = (inr None, []).
Proof.
  apply (proj2 (forecast_by_phrase_never_raises Scenario.with_failing_parser
                  "Berlin" "Germany" "next Friday" [])
           (Exn ValueError "Unknown language")).
  reflexivity.
Defined.

Lemma forecast_entry_is_first_match_witness :
  exists idx,
    nth_error Sample.january idx = Some (JStr "2025-01-06")
    /\ idx = 4%nat.
Proof.
  destruct (forecast_entry_is_first_match Sample.world Sample.lat_berlin
              Sample.lon_berlin "2025-01-06" []
              [("date", JStr "2025-01-06"); ("temperature_max", JInt 6);
               ("temperature_min", JInt (-4)); ("precipitation_sum", JInt 26);
               ("cloudcover_mean", JInt 56)]
              [forecast_berlin] Sample.forecast_body Sample.january
              eq_refl eq_refl eq_refl)
    as (idx & daily & tmax & tmin & prec & cloud & Hn & Hfirst & _).
  exists idx. split; [exact Hn|].
  destruct idx as [|[|[|[|[|idx]]]]]; try (vm_compute in Hn; discriminate).
  - reflexivity.
  - exfalso. apply (Hfirst 4%nat); [lia | reflexivity].
Defined.

Lemma forecast_without_cloudcover_column_witness :
  (exists r,
      get_weather_forecast Scenario.without_cloudcover Sample.lat_berlin
        Sample.lon_berlin "2025-01-01" []
      = (inr (Some r), [forecast_berlin])
      /\ lookup "cloudcover_mean" r = Some JNull)
  /\ get_weather_forecast Scenario.without_cloudcover Sample.lat_berlin
       Sample.lon_berlin "2025-01-02" []
     = (inr None, [forecast_berlin]).
Proof.
  assert (Hcols : forall idx, (idx < 10)%nat -> forall key,
            In key ["temperature_2m_max"; "temperature_2m_min"; "precipitation_sum"] ->
            exists col, lookup key Scenario.daily_without_cloudcover = Some (JList col)
                        /\ (idx < length col)%nat).
  { intros idx Hi key [<-|[<-|[<-|[]]]]; eexists; split;
      try reflexivity; exact Hi. }
  split.
  - apply (proj1 (forecast_without_cloudcover_column Scenario.without_cloudcover
                    Sample.lat_berlin Sample.lon_berlin "2025-01-01" []
                    (Calendar.ymd2ord 2025 1 1) Scenario.daily_without_cloudcover
                    Sample.january 0%nat eq_refl ltac:(vm_compute; split; discriminate)
                    eq_refl eq_refl eq_refl eq_refl (Hcols 0%nat ltac:(lia)))).
    reflexivity.
  - apply (proj2 (forecast_without_cloudcover_column Scenario.without_cloudcover
                    Sample.lat_berlin Sample.lon_berlin "2025-01-02" []
                    (Calendar.ymd2ord 2025 1 2) Scenario.daily_without_cloudcover
                    Sample.january 1%nat eq_refl ltac:(vm_compute; split; discriminate)
                    eq_refl eq_refl eq_refl eq_refl (Hcols 1%nat ltac:(lia)))).
    lia.
Defined.

End ToolEdgeWitnesses.

(** ** Invariants of a run of the graph *)
Section RunFacts.
Import Notions.
Variable A : Agent.

Lemma superstep_tool_next state state' next :
  superstep A tool state = inr (state', next) -> next = To reasoner.
Proof.
  unfold superstep, ebind. destruct (run_node A tool state); [discriminate|].
  cbn. now intros [= _ <-].
Qed.

Lemma superstep_reasoner_next state state' next :
  superstep A reasoner state = inr (state', next) ->
  exists c calls,
    messages state' = messages state ++ [AIMessage c calls]
    /\ next = match calls with _ :: _ => To tool | [] => END end.
Proof.
  unfold superstep, run_node, reasoner_node, ebind.
  destruct (llm_with_tools_invoke A (reasoner_input A state)) as [e|[c calls]];
    [discriminate|].
  cbn [eret fst snd add_messages messages next_target].
  rewrite check_for_tools_last. unfold ebind.
  intros H. exists c, calls. destruct calls; cbn in H; injection H as <- <-;
    split; reflexivity.
Qed.

Lemma superstep_to_END n state state' :
  superstep A n state = inr (state', END) ->
  exists c, last_item (messages state') = inr (AIMessage c []).
Proof.
  destruct n; intros H.
  - destruct (superstep_reasoner_next _ _ _ H) as (c & calls & Hm & Hn).
    destruct calls; [|discriminate]. exists c. rewrite Hm. apply last_item_app.
  - apply superstep_tool_next in H. discriminate.
Qed.

Lemma pregel_loop_done budget n state :
  status (pregel_loop A budget (To n) state) = done ->
  exists c,
    last_item (messages (final_state (pregel_loop A budget (To n) state)))
    = inr (AIMessage c []).
Proof.
  revert n state. induction budget as [|b IH]; intros n state;
    cbn [pregel_loop]; [discriminate|].
  destruct (superstep A n state) as [e|[state' next]] eqn:Hs; [discriminate|].
  cbn [status final_state]. destruct next as [n'|].
  - apply IH.
  - destruct b; cbn [pregel_loop status final_state]; [discriminate|].
    intros _. now apply (superstep_to_END n state).
Qed.

(** X10: A run that [invoke] returns from ended on an answer of the model
    that asks for no tool: the last message of the returned state is
    such an [AIMessage], so [answer_query] finds a last message and
    returns its post-processed content. *)
Theorem invoke_returns_a_final_answer :
  (forall limit input state,
      invoke A limit input = inr state ->
      exists c, last_item (messages state) = inr (AIMessage c []))
  /\ (forall q h state,
        invoke A Main.recursion_limit (h ++ [HumanMessage (Text q)]) = inr state ->
        exists c,
          last_item (messages state) = inr (AIMessage c [])
          /\ Main.answer_query A q (Some h) = Main.postprocess c).
Proof.
  assert (H : forall limit input state,
             invoke A limit input = inr state ->
             exists c, last_item (messages state) = inr (AIMessage c [])).
  { intros limit input state. unfold invoke.
    destruct (Nat.ltb limit 1); [discriminate|].
    destruct (status (run A limit input)) eqn:Hs; try discriminate.
    intros [= <-]. apply (pregel_loop_done _ _ _ Hs). }
  split; [exact H|]. intros q h state Hi.
  destruct (H _ _ _ Hi) as (c & Hc). exists c. split; [exact Hc|].
  unfold Main.answer_query, ebind. now rewrite Hi, Hc.
Qed.

Lemma pregel_loop_alternates budget n state :
  exists k, (k <= budget)%nat
            /\ trace (pregel_loop A budget (To n) state) = alternation n k.
Proof.
  revert n state. induction budget as [|b IH]; intros n state;
    cbn [pregel_loop].
  - exists 0%nat. split; [lia | reflexivity].
  - destruct (superstep A n state) as [e|[state' next]] eqn:Hs.
    + exists 0%nat. split; [lia | reflexivity].
    + cbn [trace]. destruct next as [n'|].
      * assert (n' = match n with reasoner => tool | tool => reasoner end) as ->.
        { destruct n.
          - destruct (superstep_reasoner_next _ _ _ Hs) as (c & calls & _ & Hn).
            destruct calls; [discriminate | now injection Hn].
          - apply superstep_tool_next in Hs. now injection Hs. }
        destruct (IH (match n with reasoner => tool | tool => reasoner end) state')
          as (k & Hk & Ht).
        exists (S k). split; [lia|]. cbn [alternation]. now rewrite Ht.
      * exists 1%nat. split; [lia|]. now destruct b.
Qed.

(** X11: The supersteps of a run go back and forth between the reasoner and
    the tool node, starting with the reasoner: neither node runs twice
    in a row, and the tool node has run as often as the reasoner or
    once less. *)
Theorem run_alternates_between_nodes limit input :
  exists k,
    (k <= limit)%nat
    /\ trace (run A limit input) = alternation reasoner k
    /\ count_node tool (trace (run A limit input)) = (k / 2)%nat
    /\ count_node reasoner (trace (run A limit input)) = (k - k / 2)%nat.
Proof.
  destruct (pregel_loop_alternates limit reasoner
              {| messages := add_messages [] input |}) as (k & Hk & Ht).
  exists k. split; [exact Hk|]. split; [exact Ht|].
  unfold run, entry_point. rewrite Ht. clear.
  assert (H : forall k,
    (count_node tool (alternation reasoner k) = (k / 2)%nat
     /\ count_node reasoner (alternation reasoner k) = (k - k / 2)%nat)
    /\ (count_node tool (alternation tool k) = (k - k / 2)%nat
        /\ count_node reasoner (alternation tool k) = (k / 2)%nat)).
  { clear. induction k as [|k [[IH1 IH2] [IH3 IH4]]]; [now cbn|].
    unfold count_node in *. cbn [alternation filter length].
    rewrite half_succ, IH1, IH2, IH3, IH4. pose proof (half_le k).
    repeat split; lia. }
  apply H.
Qed.

Lemma pregel_loop_more_budget budget next state extra :
  status (pregel_loop A budget next state) = done ->
  pregel_loop A (budget + extra) next state = pregel_loop A budget next state.
Proof.
  revert next state. induction budget as [|b IH]; intros next state;
    cbn [pregel_loop Nat.add]; [discriminate|].
  destruct next as [n|]; [|reflexivity].
  destruct (superstep A n state) as [e|[state' next']]; [discriminate|].
  cbn [status]. intros H. now rewrite (IH _ _ H).
Qed.

(** X12: Raising the recursion limit does not change a run that finished:
    under every larger limit [invoke] returns the same state. *)
Theorem larger_limit_same_answer limit limit' input state :
  invoke A limit input = inr state ->
  (limit <= limit')%nat ->
  invoke A limit' input = inr state.
Proof.
  unfold invoke. destruct (Nat.ltb limit 1) eqn:Hl; [discriminate|].
  apply Nat.ltb_ge in Hl.
  destruct (status (run A limit input)) eqn:Hs; try discriminate.
  intros [= <-] Hle.
  replace (Nat.ltb limit' 1) with false by (symmetry; apply Nat.ltb_ge; lia).
  replace limit' with (limit + (limit' - limit))%nat by lia.
  unfold run in *. rewrite (pregel_loop_more_budget _ _ _ _ Hs). now rewrite Hs.
Qed.

Lemma run_tools_ids calls outs :
  run_tools A calls = inr outs ->
  map message_tool_call_id outs = map (fun c => Some (tc_id c)) calls
  /\ Forall (fun m => is_reply m = true) outs.
Proof.
  revert outs. induction calls as [|c calls IH]; intros outs; cbn [run_tools].
  - intros [= <-]. split; [reflexivity | constructor].
  - unfold ebind. destruct (run_tool A c) as [e|out]; [discriminate|].
    destruct (run_tools A calls) as [e|outs']; [discriminate|].
    intros [= <-]. destruct (IH outs' eq_refl) as [Hids Hrep].
    split; [cbn; now rewrite Hids | now constructor].
Qed.

(** X13: The tool node answers the tool calls of the last message one by
    one and in their order: it appends exactly one tool message per
    call, carrying the id of that call, and hands over to the
    reasoner. *)
Theorem tool_node_answers_calls_in_order state c calls state' next :
  last_item (messages state) = inr (AIMessage c calls) ->
  superstep A tool state = inr (state', next) ->
  next = To reasoner
  /\ exists outs,
      messages state' = messages state ++ outs
      /\ length outs = length calls
      /\ map message_tool_call_id outs = map (fun c => Some (tc_id c)) calls.
Proof.
  intros Hl Hs. split; [now apply (superstep_tool_next state state')|].
  unfold superstep, run_node, tool_node, ebind in Hs. rewrite Hl in Hs.
  destruct (run_tools A calls) as [e|outs] eqn:Hr; [discriminate|].
  cbn in Hs. injection Hs as <- _. exists outs.
  destruct (run_tools_ids _ _ Hr) as [Hids _].
  split; [reflexivity|]. split; [|exact Hids].
  rewrite <- (length_map message_tool_call_id outs), Hids. apply length_map.
Qed.

Lemma superstep_replies n state state' next :
  superstep A n state = inr (state', next) ->
  exists new, messages state' = messages state ++ new
              /\ Forall (fun m => is_reply m = true) new.
Proof.
  destruct n; intros Hs.
  - destruct (superstep_reasoner_next _ _ _ Hs) as (c & calls & Hm & _).
    exists [AIMessage c calls]. split; [exact Hm | now repeat constructor].
  - unfold superstep, run_node, tool_node, ebind in Hs.
    destruct (last_item (messages state)) as [e|m]; [discriminate|].
    destruct m; try discriminate.
    destruct (run_tools A tool_calls) as [e|outs] eqn:Hr; [discriminate|].
    cbn in Hs. injection Hs as <- _. exists outs.
    split; [reflexivity | apply (run_tools_ids _ _ Hr)].
Qed.

Lemma pregel_loop_replies budget next state :
  exists new,
    messages (final_state (pregel_loop A budget next state))
    = messages state ++ new
    /\ Forall (fun m => is_reply m = true) new.
Proof.
  revert next state. induction budget as [|b IH]; intros next state;
    cbn [pregel_loop].
  - exists []. split; [now rewrite app_nil_r | constructor].
  - destruct next as [n|].
    + destruct (superstep A n state) as [e|[state' next']] eqn:Hs.
      * exists []. split; [now rewrite app_nil_r | constructor].
      * destruct (superstep_replies _ _ _ _ Hs) as (new1 & Hm1 & Hr1).
        destruct (IH next' state') as (new2 & Hm2 & Hr2).
        exists (new1 ++ new2). cbn [final_state].
        split; [now rewrite Hm2, Hm1, app_assoc | now apply Forall_app].
    + exists []. split; [now rewrite app_nil_r | constructor].
Qed.

(** X14: However a run ends, the state it leaves is the input followed by
    messages of the model and of the tools only: the graph stores no
    system or human message of its own, the system prompt included. *)
Theorem run_stores_only_replies limit input :
  exists new,
    messages (final_state (run A limit input)) = input ++ new
    /\ Forall (fun m => is_reply m = true) new
    /\ ~ In (SystemMessage (Text (SYSTEM_PROMPT A))) new.
Proof.
  destruct (pregel_loop_replies limit entry_point
              {| messages := add_messages [] input |}) as (new & Hm & Hr).
  exists new. split; [exact Hm|]. split; [exact Hr|].
  intros Hin. rewrite Forall_forall in Hr. specialize (Hr _ Hin). discriminate.
Qed.

End RunFacts.

Section RunWitnesses.
Import Notions.

Local Abbreviation hi := (HumanMessage (Text "hi")).
Local Abbreviation ask :=
  (AIMessage (Text "") [Sample.weather_call; Scenario.forecast_call]).

Lemma invoke_returns_a_final_answer_witness :
  exists state c,
    invoke Scenario.two_tool_agent Main.recursion_limit ([] ++ [hi]) = inr state
    /\ last_item (messages state) = inr (AIMessage c [])
    /\ Main.answer_query Scenario.two_tool_agent "hi" (Some [])
       = Main.postprocess c.
Proof.
  destruct (invoke Scenario.two_tool_agent Main.recursion_limit ([] ++ [hi]))
    as [e|state] eqn:Hi; [vm_compute in Hi; discriminate|].
  destruct (proj2 (invoke_returns_a_final_answer Scenario.two_tool_agent)
              "hi" [] state Hi) as (c & Hl & Ha).
  now exists state, c.
Defined.

Lemma larger_limit_same_answer_witness :
  invoke Scenario.two_tool_agent 50 [hi] = invoke Scenario.two_tool_agent 4 [hi].
Proof.
  destruct (invoke Scenario.two_tool_agent 4 [hi]) as [e|state] eqn:Hi;
    [vm_compute in Hi; discriminate|].
  apply (larger_limit_same_answer Scenario.two_tool_agent 4 50 [hi] state Hi).
  lia.
Defined.

Lemma tool_node_answers_calls_in_order_witness :
  exists outs,
    length outs = 2%nat
    /\ map message_tool_call_id outs = [Some "call_1"; Some "call_2"].
Proof.
  destruct (superstep Scenario.two_tool_agent tool {| messages := [hi; ask] |})
    as [e|[state' next]] eqn:Hs; [vm_compute in Hs; discriminate|].
  destruct (tool_node_answers_calls_in_order Scenario.two_tool_agent
              {| messages := [hi; ask] |} (Text "")
              [Sample.weather_call; Scenario.forecast_call] state' next
              eq_refl Hs) as (_ & outs & _ & Hlen & Hids).
  now exists outs.
Defined.

End RunWitnesses.

(** ** The answer and the endpoint at their edges *)
Section AnswerEdgeFacts.
Import Notions Main.

Lemma join_rejects_non_string sep items :
  Exists (fun v => match v with JStr _ => False | _ => True end) items ->
  exists msg, join sep items = inl (Exn TypeError msg).
Proof.
  induction items as [|v items IH]; intros H; [inversion H|].
  destruct v; try (eexists; reflexivity).
  inversion H as [? ? Hv|? ? Hrest]; subst; [destruct Hv|].
  destruct (IH Hrest) as (msg & Hm). cbn [join].
  destruct items as [|w items]; [inversion Hrest|].
  unfold ebind. rewrite Hm. now exists msg.
Qed.

Lemma text_parts_non_string ps :
  forallb text_is_str ps = false ->
  Exists (fun v => match v with JStr _ => False | _ => True end)
         (map part_text (filter is_text_part ps)).
Proof.
  induction ps as [|p ps IH]; cbn [forallb filter]; [discriminate|].
  intros H. apply andb_false_iff in H as [Hp|Hps].
  - unfold text_is_str in Hp. apply orb_false_iff in Hp as [Ht Hs].
    apply negb_false_iff in Ht. rewrite Ht. cbn [map]. left.
    now destruct (part_text p).
  - destruct (is_text_part p); [cbn [map]; right|]; now apply IH.
Qed.

(** X15: A part typed ["text"] whose text is not a string (a null, a
    number, a nested object) makes post-processing raise [TypeError]:
    the answer is not silently truncated. *)
Theorem postprocess_rejects_non_string_text ps :
  forallb text_is_str ps = false ->
  exists msg, postprocess (Parts ps) = inl (Exn TypeError msg).
Proof.
  intros H. cbn [postprocess]. rewrite text_parts_filter.
  apply join_rejects_non_string. now apply text_parts_non_string.
Qed.

(** X16: When the content of the last message of a run, after however
    many tool rounds, is the empty text or a list without any part
    typed ["text"], the answer of [answer_query] is the empty string
    and the endpoint replies with the fixed sentence
    "Sorry, I was not able to generate an answer.". *)
Theorem answer_without_text_is_apology A request state m :
  invoke A recursion_limit
    (Api.convert_history (Api.chat_history request)
     ++ [HumanMessage (Text (Api.message request))]) = inr state ->
  last_item (messages state) = inr m ->
  (message_content m = Text ""
   \/ exists ps, message_content m = Parts ps /\ filter is_text_part ps = []) ->
  answer_query A (Api.message request)
    (Some (Api.convert_history (Api.chat_history request))) = inr ""
  /\ Api.chat A request
     = inr {| Api.response := "Sorry, I was not able to generate an answer." |}.
Proof.
  intros Hi Hl Hc.
  assert (Ha : answer_query A (Api.message request)
                 (Some (Api.convert_history (Api.chat_history request)))
               = inr "").
  { unfold answer_query, ebind. rewrite Hi, Hl.
    destruct Hc as [->|(ps & -> & Hps)]; [reflexivity|].
    cbn [postprocess]. now rewrite text_parts_filter, Hps. }
  split; [exact Ha|]. unfold Api.chat, ebind. now rewrite Ha.
Qed.

(** X17: The [response] field the endpoint returns is never the empty
    string. *)
Theorem chat_response_is_never_empty A request :
  exists s, Api.chat A request = inr {| Api.response := s |} /\ s <> "".
Proof.
  unfold Api.chat, ebind.
  destruct (answer_query A (Api.message request) _) as [e|answer].
  - eexists. split; [reflexivity | discriminate].
  - destruct (String.eqb answer "") eqn:E.
    + eexists. split; [reflexivity | discriminate].
    + exists answer. split; [reflexivity | now apply String.eqb_neq].
Qed.

Lemma convert_history_from acc h :
  fold_left
    (fun history msg =>
       if String.eqb (Api.role msg) "user"
       then history ++ [HumanMessage (Text (Api.content msg))]
       else if String.eqb (Api.role msg) "assistant"
       then history ++ [AIMessage (Text (Api.content msg)) []]
       else history) h acc
  = acc ++ flat_map history_message h.
Proof.
  revert acc. induction h as [|msg h IH]; intros acc; cbn [fold_left flat_map].
  - now rewrite app_nil_r.
  - rewrite IH. unfold history_message.
    destruct (String.eqb (Api.role msg) "user");
      [now rewrite <- app_assoc|].
    destruct (String.eqb (Api.role msg) "assistant");
      [now rewrite <- app_assoc | reflexivity].
Qed.

Lemma convert_history_flat_map h :
  Api.convert_history h = flat_map history_message h.
Proof. apply (convert_history_from [] h). Qed.

(** X18: The history conversion keeps the entries whose role is exactly
    ["user"] or ["assistant"], in their order, as human and AI text
    messages, and drops every other entry; it therefore never yields a
    system or tool message, and it distributes over concatenation. *)
Theorem convert_history_keeps_turns h1 h2 :
  Api.convert_history h1 = flat_map history_message h1
  /\ Api.convert_history (h1 ++ h2)
     = Api.convert_history h1 ++ Api.convert_history h2
  /\ (length (Api.convert_history h1) <= length h1)%nat
  /\ Forall (fun m => is_turn m = true) (Api.convert_history h1).
Proof.
  pose proof convert_history_flat_map as H.
  split; [apply H|]. split; [now rewrite !H, flat_map_app|].
  rewrite H. split.
  - induction h1 as [|msg h IH]; [cbn; lia|].
    cbn [flat_map length]. rewrite length_app. unfold history_message at 1.
    destruct (String.eqb (Api.role msg) "user"); [cbn; lia|].
    destruct (String.eqb (Api.role msg) "assistant"); cbn; lia.
  - induction h1 as [|msg h IH]; [constructor|].
    cbn [flat_map]. apply Forall_app. split; [|exact IH].
    unfold history_message.
    destruct (String.eqb (Api.role msg) "user"); [now repeat constructor|].
    destruct (String.eqb (Api.role msg) "assistant"); now repeat constructor.
Qed.

End AnswerEdgeFacts.

Lemma postprocess_rejects_non_string_text_witness :
  exists msg,
    Main.postprocess
      (Parts [PartDict [("type", JStr "text"); ("text", JStr "A")];
              PartDict [("type", JStr "text"); ("text", JNull)]])
    = inl (Exn TypeError msg).
Proof.
  apply postprocess_rejects_non_string_text. reflexivity.
Defined.

Lemma answer_without_text_is_apology_witness :
  Main.answer_query Scenario.image_only_agent "hi" (Some []) = inr ""
  /\ Api.chat Scenario.image_only_agent
       {| Api.message := "hi"; Api.chat_history := [] |}
     = inr {| Api.response := "Sorry, I was not able to generate an answer." |}.
Proof.
  apply (answer_without_text_is_apology Scenario.image_only_agent
           {| Api.message := "hi"; Api.chat_history := [] |}
           {| messages :=
                [HumanMessage (Text "hi");
                 AIMessage (Text "") [Sample.weather_call];
                 ToolMessage (Text "get_weather_from_city_name") "call_1";
                 AIMessage
                   (Parts [PartDict [("type", JStr "image"); ("url", JStr "...")]])
                   []] |}
           (AIMessage
              (Parts [PartDict [("type", JStr "image"); ("url", JStr "...")]])
              [])).
  - vm_compute. reflexivity.
  - reflexivity.
  - right. eexists. split; reflexivity.
Defined.

(** ** Loading the ingestion configuration *)
Section LoadConfigFacts.
Import LoadConfig.
Variable read_yaml : string -> Exc json.


(** X20: Loading the document that spells a configuration out gives that
    configuration back, whatever values its fields hold. *)
Theorem config_round_trip path c :
  read_yaml path = inr (to_yaml c) ->
  load_config_from_yaml read_yaml path = inr c.
Proof.
  intros Hr. unfold load_config_from_yaml, ebind. rewrite Hr.
  destruct c as [[q e] d]. destruct q, e, d. reflexivity.
Qed.

Lemma keyword_arguments_ok fields d d' :
  keyword_arguments fields (JDict d) = inr d' ->
  d' = d
  /\ (forall k v, In (k, v) d -> In k fields)
  /\ (forall f, In f fields -> exists v, lookup f d = Some v).
Proof.
  unfold keyword_arguments.
  destruct (forallb (fun kv => existsb (String.eqb (fst kv)) fields) d) eqn:H1;
    [|discriminate].
  destruct (forallb _ fields) eqn:H2; [|discriminate].
  cbn [negb]. intros [= <-]. split; [reflexivity|]. split.
  - intros k v Hin. rewrite forallb_forall in H1. specialize (H1 _ Hin).
    apply existsb_exists in H1 as (f & Hf & Heq). cbn in Heq.
    apply String.eqb_eq in Heq. now subst.
  - intros f Hf. rewrite forallb_forall in H2. specialize (H2 _ Hf).
    destruct (lookup f d) as [v|]; [now exists v | discriminate].
Qed.

(** X21: A configuration is returned only for a document whose ["qdrant"]
    and ["embedding_model"] sections are mappings with exactly the
    fields of their dataclasses: a key that is no field, or a field
    that is missing, makes the load fail.  Every field of the returned
    configuration is the value stored under its key: the five of the
    Qdrant section, the four of the embedding section and the two
    directories. *)
Theorem config_sections_have_exactly_the_fields path d c :
  read_yaml path = inr (JDict d) ->
  load_config_from_yaml read_yaml path = inr c ->
  exists q e s p,
    lookup "qdrant" d = Some (JDict q)
    /\ lookup "embedding_model" d = Some (JDict e)
    /\ lookup "source_data" d = Some s
    /\ lookup "processed_data" d = Some p
    /\ (forall k v, In (k, v) q -> In k qdrant_fields)
    /\ (forall f, In f qdrant_fields -> exists v, lookup f q = Some v)
    /\ (forall k v, In (k, v) e -> In k embedding_fields)
    /\ (forall f, In f embedding_fields -> exists v, lookup f e = Some v)
    /\ lookup "host" q = Some (host (fst (fst c)))
    /\ lookup "port" q = Some (port (fst (fst c)))
    /\ lookup "collection_name" q = Some (collection_name (fst (fst c)))
    /\ lookup "vector_size" q = Some (vector_size (fst (fst c)))
    /\ lookup "distance" q = Some (distance (fst (fst c)))
    /\ lookup "name" e = Some (name (snd (fst c)))
    /\ lookup "dimension" e = Some (dimension (snd (fst c)))
    /\ lookup "chunk_size" e = Some (chunk_size (snd (fst c)))
    /\ lookup "chunk_overlap" e = Some (chunk_overlap (snd (fst c)))
    /\ getitem_str s "directory" = inr (source_data_dir (snd c))
    /\ getitem_str p "directory" = inr (processed_data_dir (snd c)).
Proof.
  intros Hr. unfold load_config_from_yaml, ebind. rewrite Hr.
  destruct (some_not_in sections (JDict d)) as [e0|[|]]; try discriminate.
  cbn [getitem_str].
  destruct (lookup "qdrant" d) as [qv|]; [|discriminate]. cbn [eret].
  unfold QdrantConfig_init, EmbeddingModelConfig_init, ebind.
  destruct (keyword_arguments qdrant_fields qv) as [e0|q'] eqn:Hq;
    [discriminate|].
  destruct qv as [| | | | | |q]; try discriminate Hq.
  destruct (keyword_arguments_ok _ _ _ Hq) as (-> & Hq1 & Hq2).
  cbn [eret].
  destruct (lookup "embedding_model" d) as [ev|]; [|discriminate].
  cbn [eret].
  destruct (keyword_arguments embedding_fields ev) as [e0|e'] eqn:He;
    [discriminate|].
  destruct ev as [| | | | | |em]; try discriminate He.
  destruct (keyword_arguments_ok _ _ _ He) as (-> & He1 & He2).
  cbn [eret].
  destruct (lookup "source_data" d) as [sv|]; [|discriminate].
  cbn [eret].
  destruct (getitem_str sv "directory") as [e0|sdir] eqn:Hsd; [discriminate|].
  destruct (lookup "processed_data" d) as [pv|]; [|discriminate].
  cbn [eret].
  destruct (getitem_str pv "directory") as [e0|pdir] eqn:Hpd; [discriminate|].
  intros [= <-]. exists q, em, sv, pv.
  cbn [fst snd host port collection_name vector_size distance
       name dimension chunk_size chunk_overlap
       source_data_dir processed_data_dir].
  do 8 (split; [reflexivity || assumption|]).
  unfold argument.
  destruct (Hq2 "host") as (v1 & ->); [simpl; tauto|].
  destruct (Hq2 "port") as (v2 & ->); [simpl; tauto|].
  destruct (Hq2 "collection_name") as (v3 & ->); [simpl; tauto|].
  destruct (Hq2 "vector_size") as (v4 & ->); [simpl; tauto|].
  destruct (Hq2 "distance") as (v5 & ->); [simpl; tauto|].
  destruct (He2 "name") as (w1 & ->); [simpl; tauto|].
  destruct (He2 "dimension") as (w2 & ->); [simpl; tauto|].
  destruct (He2 "chunk_size") as (w3 & ->); [simpl; tauto|].
  destruct (He2 "chunk_overlap") as (w4 & ->); [simpl; tauto|].
  repeat (split; [reflexivity|]). split; assumption.
Qed.

End LoadConfigFacts.

Section LoadConfigWitnesses.
Import LoadConfig.


Lemma config_round_trip_witness :
  load_config_from_yaml (fun _ => eret (to_yaml ingestion_dev)) "ingestion_dev.yaml"
  = inr ingestion_dev.
Proof. apply config_round_trip. reflexivity. Defined.

Lemma config_sections_have_exactly_the_fields_witness :
  exists q e,
    lookup "qdrant"
      [("qdrant", JDict [("host", JStr "qdrant"); ("port", JInt 6333);
                         ("collection_name", JStr "documents");
                         ("vector_size", JInt 384); ("distance", JStr "Cosine")]);
       ("embedding_model",
        JDict [("name", JStr "all-MiniLM-L6-v2"); ("dimension", JInt 384);
               ("chunk_size", JInt 1000); ("chunk_overlap", JInt 200)]);
       ("source_data", JDict [("directory", JStr "source_data")]);
       ("processed_data", JDict [("directory", JStr "processed_data")])]
    = Some (JDict q)
    /\ lookup "embedding_model"
         [("qdrant", JDict [("host", JStr "qdrant"); ("port", JInt 6333);
                            ("collection_name", JStr "documents");
                            ("vector_size", JInt 384);
                            ("distance", JStr "Cosine")]);
          ("embedding_model",
           JDict [("name", JStr "all-MiniLM-L6-v2"); ("dimension", JInt 384);
                  ("chunk_size", JInt 1000); ("chunk_overlap", JInt 200)]);
          ("source_data", JDict [("directory", JStr "source_data")]);
          ("processed_data", JDict [("directory", JStr "processed_data")])]
       = Some (JDict e)
    /\ lookup "host" q = Some (JStr "qdrant")
    /\ lookup "port" q = Some (JInt 6333)
    /\ lookup "collection_name" q = Some (JStr "documents")
    /\ lookup "vector_size" q = Some (JInt 384)
    /\ lookup "distance" q = Some (JStr "Cosine")
    /\ lookup "name" e = Some (JStr "all-MiniLM-L6-v2")
    /\ lookup "dimension" e = Some (JInt 384)
    /\ lookup "chunk_size" e = Some (JInt 1000)
    /\ lookup "chunk_overlap" e = Some (JInt 200).
Proof.
  destruct (config_sections_have_exactly_the_fields
              (fun _ => eret (to_yaml ingestion_dev)) "ingestion_dev.yaml"
              _ ingestion_dev eq_refl eq_refl)
    as (q & e & s & p & Hq & He & _ & _ & _ & _ & _ & _
        & H1 & H2 & H3 & H4 & H5 & H6 & H7 & H8 & H9 & _).
  exists q, e. repeat (split; [assumption|]). assumption.
Defined.

End LoadConfigWitnesses.

Lemma chat_returns A request :
  exists s, Api.chat A request = inr {| Api.response := s |}.
Proof.
  unfold Api.chat, ebind.
  destruct (Main.answer_query A (Api.message request) _) as [e|answer];
    [eexists; reflexivity|].
  destruct (String.eqb answer ""); eexists; reflexivity.
Qed.

(** ** The frontend and its conversation with the endpoint *)
Section FrontendFacts.
Import Frontend Wire.

(** X22: What [process_response] returns, case by case, whatever the
    transport does; it raises in none.  With status 200 and a JSON
    object that has a ["response"] entry, that entry; with status 200
    and any other JSON value, "Sorry, invalid response format from
    server."; with another status and a readable body, "Sorry, an
    error occurred."; and when posting or reading the body raises,
    "Sorry, I couldn't establish a connection to the API.". *)
Theorem process_response_outcomes post prompt messages :
  (forall response d v,
      post (request_data prompt messages) = inr response ->
      status response = 200%Z ->
      json_body response = inr (JDict d) ->
      lookup "response" d = Some v ->
      process_response post prompt messages = v)
  /\ (forall response data,
        post (request_data prompt messages) = inr response ->
        status response = 200%Z ->
        json_body response = inr data ->
        (forall d, data = JDict d -> lookup "response" d = None) ->
        process_response post prompt messages
        = JStr "Sorry, invalid response format from server.")
  /\ (forall response text,
        post (request_data prompt messages) = inr response ->
        status response <> 200%Z ->
        text_body response = inr text ->
        process_response post prompt messages
        = JStr "Sorry, an error occurred.")
  /\ (forall response,
        post (request_data prompt messages) = inr response ->
        (status response = 200%Z /\ exists e, json_body response = inl e)
        \/ (status response <> 200%Z /\ exists e, text_body response = inl e) ->
        process_response post prompt messages
        = JStr "Sorry, I couldn't establish a connection to the API.")
  /\ (forall e,
        post (request_data prompt messages) = inl e ->
        process_response post prompt messages
        = JStr "Sorry, I couldn't establish a connection to the API.").
Proof.
  unfold process_response, ebind.
  split; [|split; [|split; [|split]]].
  - intros response d v -> Hs Hj Hl. apply Z.eqb_eq in Hs.
    now rewrite Hs, Hj, Hl.
  - intros response data -> Hs Hj Hd. apply Z.eqb_eq in Hs. rewrite Hs, Hj.
    destruct data; try reflexivity. now rewrite (Hd _ eq_refl).
  - intros response text -> Hs Ht. apply Z.eqb_neq in Hs. now rewrite Hs, Ht.
  - intros response -> [[Hs (e & He)]|[Hs (e & He)]].
    + apply Z.eqb_eq in Hs. now rewrite Hs, He.
    + apply Z.eqb_neq in Hs. now rewrite Hs, He.
  - now intros e ->.
Qed.

Lemma parse_sent_history messages :
  textual messages = true ->
  parse_chat_history
    (map (fun msg => JDict [("role", JStr (sm_role msg));
                            ("content", sm_content msg)]) messages)
  = Some (sent_history messages).
Proof.
  induction messages as [|m ms IH]; [reflexivity|].
  cbn [textual forallb]. intros H. apply andb_true_iff in H as [Hm Hms].
  cbn [map parse_chat_history sent_history]. fold (sent_history ms).
  rewrite (IH Hms). cbn. destruct (sm_content m); try discriminate.
  reflexivity.
Qed.

Lemma parse_request_data prompt messages :
  textual messages = true ->
  parse_chat_request (request_data prompt messages)
  = Some {| Api.message := prompt; Api.chat_history := sent_history messages |}.
Proof.
  intros H. unfold request_data, parse_chat_request.
  cbn [lookup String.eqb Ascii.eqb Bool.eqb].
  now rewrite (parse_sent_history _ H).
Qed.

Variable S : Server.
Variable A : Graph.Agent.

(** What the endpoint answers to the frontend's request. *)
Lemma process_response_against_endpoint prompt messages :
  textual messages = true ->
  exists s,
    Api.chat A {| Api.message := prompt;
                  Api.chat_history := sent_history messages |}
    = inr {| Api.response := s |}
    /\ process_response (post_chat S A) prompt messages = JStr s.
Proof.
  intros H. unfold process_response, post_chat, ebind.
  rewrite (parse_request_data _ _ H).
  destruct (chat_returns A
              {| Api.message := prompt; Api.chat_history := sent_history messages |})
    as (s & Hs).
  exists s. split; [exact Hs|]. now rewrite Hs.
Qed.

(** X23: A turn of the frontend against the endpoint appends the prompt
    and then the endpoint's answer to the session; the request it
    sends carries, as history, the session including the prompt just
    appended. *)
Theorem turn_against_endpoint messages prompt :
  textual messages = true ->
  prompt <> "" ->
  let asked := messages ++ [{| sm_role := "user"; sm_content := JStr prompt |}] in
  exists s,
    Api.chat A {| Api.message := prompt; Api.chat_history := sent_history asked |}
    = inr {| Api.response := s |}
    /\ chat_turn (post_chat S A) messages prompt
       = asked ++ [{| sm_role := "assistant"; sm_content := JStr s |}]
    /\ textual (chat_turn (post_chat S A) messages prompt) = true.
Proof.
  intros Ht Hp asked.
  assert (Ha : textual asked = true).
  { unfold asked, textual. rewrite forallb_app. fold (textual messages).
    now rewrite Ht. }
  destruct (process_response_against_endpoint prompt asked Ha) as (s & Hs & Hr).
  exists s. split; [exact Hs|].
  unfold chat_turn. apply String.eqb_neq in Hp. rewrite Hp.
  fold asked. rewrite Hr. split; [reflexivity|].
  unfold textual. rewrite forallb_app. fold (textual asked). now rewrite Ha.
Qed.

(** X24: Because the prompt is appended to the session before the request
    is built, and sent again as [message], the conversation the
    endpoint hands to the graph ends with the prompt twice. *)
Theorem prompt_reaches_the_graph_twice messages prompt :
  textual messages = true ->
  let asked := messages ++ [{| sm_role := "user"; sm_content := JStr prompt |}] in
  exists request,
    parse_chat_request (request_data prompt asked) = Some request
    /\ Api.convert_history (Api.chat_history request)
       ++ [Graph.HumanMessage (Graph.Text (Api.message request))]
       = Api.convert_history (sent_history messages)
         ++ [Graph.HumanMessage (Graph.Text prompt);
             Graph.HumanMessage (Graph.Text prompt)].
Proof.
  intros Ht asked.
  assert (Ha : textual asked = true).
  { unfold asked, textual. rewrite forallb_app. fold (textual messages).
    now rewrite Ht. }
  eexists. split; [apply (parse_request_data _ _ Ha)|].
  cbn [Api.chat_history Api.message]. unfold asked, sent_history.
  rewrite map_app. fold (sent_history messages).
  rewrite !convert_history_flat_map, flat_map_app, <- app_assoc.
  reflexivity.
Qed.

Lemma chat_turn_appends post messages prompt :
  exists new,
    chat_turn post messages prompt = messages ++ new
    /\ length new = (if String.eqb prompt "" then 0 else 2)%nat.
Proof.
  unfold chat_turn. destruct (String.eqb prompt "").
  - exists []. now rewrite app_nil_r.
  - eexists. rewrite <- app_assoc. split; reflexivity.
Qed.

Lemma session_from post prompts messages :
  exists new,
    fold_left (chat_turn post) prompts messages = messages ++ new
    /\ length new
       = (2 * length (filter (fun p => negb (String.eqb p "")) prompts))%nat.
Proof.
  revert messages. induction prompts as [|p ps IH]; intros messages;
    cbn [fold_left filter].
  - exists []. now rewrite app_nil_r.
  - destruct (chat_turn_appends post messages p) as (new1 & H1 & L1).
    destruct (IH (chat_turn post messages p)) as (new2 & H2 & L2).
    exists (new1 ++ new2). rewrite H2, H1, <- app_assoc. split; [reflexivity|].
    rewrite length_app, L1, L2.
    destruct (String.eqb p ""); cbn [negb length]; lia.
Qed.

(** X25: A session only grows: it starts with the greeting, every prompt
    that is not empty adds two messages, and no turn changes or drops
    an earlier message, whatever the transport does. *)
Theorem session_only_grows post prompts :
  exists new,
    session post prompts = greeting :: new
    /\ length new
       = (2 * length (filter (fun p => negb (String.eqb p "")) prompts))%nat
    /\ forall prompt, exists more,
        session post (prompts ++ [prompt]) = session post prompts ++ more.
Proof.
  unfold session, init_session_state.
  destruct (session_from post prompts [greeting]) as (new & H & L).
  exists new. split; [exact H|]. split; [exact L|].
  intros prompt. rewrite fold_left_app. cbn [fold_left].
  destruct (chat_turn_appends post (fold_left (chat_turn post) prompts [greeting])
              prompt) as (more & Hm & _).
  now exists more.
Qed.

End FrontendFacts.

Section FrontendWitnesses.
Import Frontend Wire.

Local Abbreviation server :=
  {| dumps := fun _ => "{}"; detail := fun _ => JList [] |}.

Lemma process_response_outcomes_witness :
  process_response
    (fun _ => eret {| status := 200;
                      json_body := eret (JDict [("response", JStr "Sunny.")]);
                      text_body := eret "" |}) "hi" [greeting]
  = JStr "Sunny."
  /\ process_response
       (fun _ => eret {| status := 200;
                         json_body := eret (JDict [("answer", JStr "Sunny.")]);
                         text_body := eret "" |}) "hi" [greeting]
     = JStr "Sorry, invalid response format from server."
  /\ process_response
       (fun _ => eret {| status := 200;
                         json_body := eret (JList [JStr "Sunny."]);
                         text_body := eret "" |}) "hi" [greeting]
     = JStr "Sorry, invalid response format from server."
  /\ process_response
       (fun _ => eret {| status := 500;
                         json_body := eraise ValueError "not JSON";
                         text_body := eret "Internal Server Error" |})
       "hi" [greeting]
     = JStr "Sorry, an error occurred."
  /\ process_response
       (fun _ => eret {| status := 200;
                         json_body := eraise ValueError "not JSON";
                         text_body := eret "<html>" |}) "hi" [greeting]
     = JStr "Sorry, I couldn't establish a connection to the API."
  /\ process_response (fun _ => eraise OtherError "Connection refused")
       "hi" [greeting]
     = JStr "Sorry, I couldn't establish a connection to the API.".
Proof.
  split; [|split; [|split; [|split; [|split]]]].
  - eapply (proj1 (process_response_outcomes _ "hi" [greeting]));
      reflexivity.
  - eapply (proj1 (proj2 (process_response_outcomes _ "hi" [greeting])));
      try reflexivity.
    intros d [= <-]. reflexivity.
  - eapply (proj1 (proj2 (process_response_outcomes _ "hi" [greeting])));
      try reflexivity.
    intros d Hd. discriminate Hd.
  - eapply (proj1 (proj2 (proj2 (process_response_outcomes _ "hi" [greeting]))));
      [reflexivity | cbn; discriminate | reflexivity].
  - eapply (proj1 (proj2 (proj2 (proj2
              (process_response_outcomes _ "hi" [greeting])))));
      [reflexivity|].
    left. split; [reflexivity | eexists; reflexivity].
  - eapply (proj2 (proj2 (proj2 (proj2
              (process_response_outcomes _ "hi" [greeting])))));
      reflexivity.
Defined.

Lemma turn_against_endpoint_witness :
  chat_turn (post_chat server (Sample.direct_agent (Graph.Text "Hello")))
    [greeting] "hi"
  = [greeting;
     {| sm_role := "user"; sm_content := JStr "hi" |};
     {| sm_role := "assistant"; sm_content := JStr "Hello" |}].
Proof.
  destruct (turn_against_endpoint server (Sample.direct_agent (Graph.Text "Hello"))
              [greeting] "hi" eq_refl ltac:(discriminate))
    as (s & Hs & Ht & _).
  rewrite Ht. vm_compute in Hs. injection Hs as <-. reflexivity.
Defined.

Lemma prompt_reaches_the_graph_twice_witness :
  exists request,
    parse_chat_request
      (request_data "hi"
         [greeting; {| sm_role := "user"; sm_content := JStr "hi" |}])
    = Some request
    /\ Api.convert_history (Api.chat_history request)
       ++ [Graph.HumanMessage (Graph.Text (Api.message request))]
       = [Graph.AIMessage
            (Graph.Text "Hello! I'm your intelligent assistant. How can I help you today? I can access your internal documents of check the weather.") [];
          Graph.HumanMessage (Graph.Text "hi");
          Graph.HumanMessage (Graph.Text "hi")].
Proof.
  exact (prompt_reaches_the_graph_twice [greeting] "hi" eq_refl).
Defined.

End FrontendWitnesses.

(** ** Ingestion of PDF files *)
Section IngestFacts.
Import LoadConfig Ingest.
Variable P : Platform.

(** X26: [main] refuses a missing or empty path with [ValueError] and a
    path to no file with [FileNotFoundError], in both cases before
    anything is asked of Qdrant and without leaving any event. *)
Theorem main_refuses_bad_paths self log :
  main P self None log
  = (inl (Error "ValueError" "Please provide a valid PDF file path."), log)
  /\ main P self (Some "") log
     = (inl (Error "ValueError" "Please provide a valid PDF file path."), log)
  /\ (forall path,
        path <> "" ->
        path_exists P log path = false ->
        main P self (Some path) log
        = (inl (Error "FileNotFoundError" ("File not found: " ++ path)%string),
           log)).
Proof.
  split; [reflexivity|]. split; [reflexivity|].
  intros path Hp He. unfold main. apply String.eqb_neq in Hp. rewrite Hp.
  unfold process_pdf_file. now rewrite He.
Qed.

Ltac ingest_leaf :=
  cbn [fst snd]; eexists;
  split;
    [first [ symmetry; apply app_nil_r
           | reflexivity
           | rewrite <- app_assoc; reflexivity ]
    | split;
        [reflexivity
        | split;
            [let H := fresh in intros ? ? H; cbn in H; destruct H
            | let H := fresh in intros H; discriminate H]]].

Ltac ingest_uploaded He :=
  let H := fresh in
  intros ? ? H; cbn in H; destruct H as [H|[]];
  injection H as <- <-;
  split; [reflexivity | split; [discriminate | exact He]].

(** X27: What processing one file leaves behind: it moves nothing; when
    it returns, exactly one upload has completed, namely of the chunks
    extracted from the file, which are then not empty, to the
    configured collection; and whether it returns or raises, no upload
    completes for another collection, for other chunks or for no
    chunks at all. *)
Theorem process_pdf_file_uploads self path log :
  exists new,
    snd (process_pdf_file P self path log) = log ++ new
    /\ moved new = []
    /\ (forall collection chunks,
          In (collection, chunks) (uploads new) ->
          collection = QDRANT_COLLECTION_NAME self
          /\ chunks <> []
          /\ extract_chunks_from_pdf P self path = Some chunks)
    /\ (fst (process_pdf_file P self path log) = inr tt ->
        exists chunk chunks,
          extract_chunks_from_pdf P self path = Some (chunk :: chunks)
          /\ uploads new = [(QDRANT_COLLECTION_NAME self, chunk :: chunks)]).
Proof.
  unfold process_pdf_file, get_qdrant_client, get_embedding_model,
    setup_qdrant_collection, vectorize_and_upload, andthen, call, perform,
    fail, pure.
  destruct (path_exists P log path); cbn [negb]; [|ingest_leaf].
  destruct (qdrant_client P (QDRANT_HOST self) (QDRANT_PORT self)) as [e|[]];
    [ingest_leaf|].
  destruct (embedding_model P (EMBEDDING_MODEL_NAME self)) as [e|[]];
    [ingest_leaf|].
  destruct (collection_exists P log (QDRANT_COLLECTION_NAME self)) as [e|[|]];
    [ingest_leaf| |].
  - destruct (extract_chunks_from_pdf P self path) as [[|chunk chunks]|] eqn:He;
      [ingest_leaf| |ingest_leaf].
    destruct (from_documents P (chunk :: chunks) (QDRANT_COLLECTION_NAME self))
      as [e|[]]; [ingest_leaf|].
    cbn [fst snd]. eexists. split; [reflexivity|].
    split; [reflexivity|]. split; [ingest_uploaded (eq_refl (Some (chunk :: chunks)))|].
    intros _. now exists chunk, chunks.
  - destruct (create_collection P (QDRANT_COLLECTION_NAME self)
                (EMBEDDING_DIMENSION self) (DISTANCE_METRIC self)) as [e|[]];
      [ingest_leaf|].
    destruct (extract_chunks_from_pdf P self path) as [[|chunk chunks]|] eqn:He;
      [ingest_leaf| |ingest_leaf].
    destruct (from_documents P (chunk :: chunks) (QDRANT_COLLECTION_NAME self))
      as [e|[]]; [ingest_leaf|].
    cbn [fst snd]. eexists. split; [rewrite <- app_assoc; reflexivity|].
    split; [reflexivity|]. split; [ingest_uploaded (eq_refl (Some (chunk :: chunks)))|].
    intros _. now exists chunk, chunks.
Qed.


Lemma process_pdf_file_moves_nothing self path log :
  exists new,
    snd (process_pdf_file P self path log) = log ++ new /\ moved new = [].
Proof.
  unfold process_pdf_file, get_qdrant_client, get_embedding_model,
    setup_qdrant_collection, vectorize_and_upload, andthen, call, perform,
    fail, pure.
  destruct (path_exists P log path); cbn [negb];
    [|exists []; now rewrite app_nil_r].
  destruct (qdrant_client P (QDRANT_HOST self) (QDRANT_PORT self)) as [e|[]];
    [exists []; now rewrite app_nil_r|].
  destruct (embedding_model P (EMBEDDING_MODEL_NAME self)) as [e|[]];
    [exists []; now rewrite app_nil_r|].
  destruct (collection_exists P log (QDRANT_COLLECTION_NAME self)) as [e|[|]];
    [exists []; now rewrite app_nil_r| |].
  - destruct (extract_chunks_from_pdf P self path) as [[|chunk chunks]|];
      try (exists []; now rewrite app_nil_r).
    destruct (from_documents P (chunk :: chunks) (QDRANT_COLLECTION_NAME self))
      as [e|[]]; [exists []; now rewrite app_nil_r|].
    eexists. split; reflexivity.
  - destruct (create_collection P (QDRANT_COLLECTION_NAME self)
                (EMBEDDING_DIMENSION self) (DISTANCE_METRIC self)) as [e|[]];
      [exists []; now rewrite app_nil_r|].
    destruct (extract_chunks_from_pdf P self path) as [[|chunk chunks]|];
      try (eexists; split; reflexivity).
    destruct (from_documents P (chunk :: chunks) (QDRANT_COLLECTION_NAME self))
      as [e|[]]; [eexists; split; reflexivity|].
    eexists. cbn [snd]. rewrite <- app_assoc. split; reflexivity.
Qed.

Lemma main_moves_nothing self path log :
  exists new, snd (main P self path log) = log ++ new /\ moved new = [].
Proof.
  unfold main. destruct path as [path|]; [|exists []; now rewrite app_nil_r].
  destruct (String.eqb path ""); [exists []; now rewrite app_nil_r|].
  apply process_pdf_file_moves_nothing.
Qed.

(** Processing one document of the batch moves that document, as its
    last action, when it returns, and moves nothing when it raises. *)
Lemma process_one_moves q e dir document log :
  exists new,
    snd (process_one P q e dir document log) = log ++ new
    /\ moved new
       = match fst (process_one P q e dir document log) with
         | inr _ => [document]
         | inl _ => []
         end.
Proof.
  unfold process_one, andthen.
  destruct (main_moves_nothing (DocumentProcessor_init q e) (Some document) log)
    as (new1 & H1 & M1).
  destruct (main P (DocumentProcessor_init q e) (Some document) log)
    as [[err|[]] log1]; cbn [snd] in H1; subst log1; cbn [fst snd].
  { now exists new1. }
  assert (Hmk : exists new2,
    snd (if negb (path_exists P (log ++ new1) dir)
         then perform (makedirs P dir) (MakeDirs dir) (log ++ new1)
         else (inr tt, log ++ new1)) = (log ++ new1) ++ new2
    /\ moved new2 = []).
  { unfold perform. destruct (negb _); [|exists []; now rewrite app_nil_r].
    destruct (makedirs P dir) as [err|[]];
      [exists []; now rewrite app_nil_r | eexists; split; reflexivity]. }
  destruct Hmk as (new2 & H2 & M2).
  destruct (if negb (path_exists P (log ++ new1) dir)
            then perform (makedirs P dir) (MakeDirs dir) (log ++ new1)
            else (inr tt, log ++ new1)) as [[err|[]] log2];
    cbn [snd] in H2; subst log2; cbn [fst snd].
  { exists (new1 ++ new2). rewrite app_assoc. split; [reflexivity|].
    unfold moved in *. now rewrite flat_map_app, M1, M2. }
  destruct (splitext P (basename P document)) as [nm ext].
  unfold perform.
  destruct (move P document _) as [err|[]]; cbn [fst snd].
  - exists (new1 ++ new2). rewrite app_assoc. split; [reflexivity|].
    unfold moved in *. now rewrite flat_map_app, M1, M2.
  - eexists. rewrite <- !app_assoc. split; [reflexivity|].
    unfold moved in *. rewrite !flat_map_app, M1, M2. reflexivity.
Qed.

Lemma process_each_moves q e dir documents log :
  exists new done rest,
    snd (process_each P q e dir documents log) = log ++ new
    /\ moved new = done
    /\ documents = done ++ rest
    /\ (fst (process_each P q e dir documents log) = inr tt -> rest = [])
    /\ (forall err, fst (process_each P q e dir documents log) = inl err ->
        rest <> []).
Proof.
  revert log. induction documents as [|document documents IH]; intros log.
  - exists [], [], []. cbn. rewrite app_nil_r.
    repeat split; try reflexivity; discriminate.
  - cbn [process_each]. unfold andthen.
    destruct (process_one_moves q e dir document log) as (new1 & H1 & M1).
    destruct (process_one P q e dir document log) as [[err|[]] log1];
      cbn [fst snd] in H1, M1; subst log1.
    + exists new1, [], (document :: documents). cbn [fst snd app].
      repeat split; try assumption; try reflexivity; discriminate.
    + destruct (IH (log ++ new1)) as (new2 & done & rest & H2 & M2 & Hd & Hok & Hko).
      exists (new1 ++ new2), (document :: done), rest.
      rewrite H2, app_assoc. split; [reflexivity|].
      unfold moved in *. rewrite flat_map_app, M1, M2.
      split; [reflexivity|]. split; [now rewrite Hd|]. now split.
Qed.

(** X29: A batch moves its documents in their order and stops at the first
    one that fails: the documents moved are a beginning of the batch,
    the whole batch when it returns [True], and a proper beginning,
    leaving the failing document and all later ones where they are,
    when it raises. *)
Theorem batch_stops_at_first_failure q e dir documents log :
  exists new done rest,
    snd (process_all_pdfs P q e dir (Some documents) log) = log ++ new
    /\ moved new = done
    /\ documents = done ++ rest
    /\ (fst (process_all_pdfs P q e dir (Some documents) log) = inr true ->
        rest = [])
    /\ (forall err,
          fst (process_all_pdfs P q e dir (Some documents) log) = inl err ->
          rest <> []).
Proof.
  destruct documents as [|document documents].
  - exists [], [], []. cbn. rewrite app_nil_r.
    repeat split; try reflexivity; discriminate.
  - cbn [process_all_pdfs]. unfold andthen.
    destruct (process_each_moves q e dir (document :: documents) log)
      as (new & done & rest & H & M & Hd & Hok & Hko).
    exists new, done, rest.
    destruct (process_each P q e dir (document :: documents) log)
      as [[err|[]] log1]; cbn [fst snd pure] in *.
    + split; [exact H|]. split; [exact M|]. split; [exact Hd|].
      split; [discriminate | intros err0 _; now apply (Hko err)].
    + split; [exact H|]. split; [exact M|]. split; [exact Hd|].
      split; [intros _; now apply Hok | discriminate].
Qed.


End IngestFacts.

Section IngestWitnesses.
Import LoadConfig Ingest.

Lemma main_refuses_bad_paths_witness :
  main Site.platform Site.processor (Some "/tmp/missing.pdf") []
  = (inl (Error "FileNotFoundError" "File not found: /tmp/missing.pdf"), []).
Proof.
  apply (proj2 (proj2 (main_refuses_bad_paths Site.platform Site.processor [])));
    [discriminate | reflexivity].
Defined.

Lemma process_pdf_file_uploads_witness :
  exists new,
    snd (process_pdf_file Site.platform Site.processor Site.paris []) = new
    /\ uploads new
       = [(JStr "documents", [Site.page "Paris is the capital of France."])]
    /\ moved new = [].
Proof.
  destruct (process_pdf_file_uploads Site.platform Site.processor Site.paris [])
    as (new & Hs & Hm & _ & Hok).
  exists new. split; [exact Hs|]. split; [|exact Hm].
  destruct (Hok eq_refl) as (chunk & chunks & He & Hu).
  rewrite Hu. vm_compute in He. injection He as <- <-. reflexivity.
Defined.


Lemma batch_stops_at_first_failure_witness :
  exists new,
    snd (process_all_pdfs Site.platform (fst (fst ingestion_dev))
           (snd (fst ingestion_dev)) "processed_data"
           (Some [Site.paris; Site.rome; Site.oslo]) []) = new
    /\ moved new = [Site.paris].
Proof.
  destruct (batch_stops_at_first_failure Site.platform (fst (fst ingestion_dev))
              (snd (fst ingestion_dev)) "processed_data"
              [Site.paris; Site.rome; Site.oslo] [])
    as (new & done & rest & Hs & Hm & _).
  exists new. split; [exact Hs|].
  cbn [app] in Hs. subst new. vm_compute. reflexivity.
Defined.


End IngestWitnesses.
